(** * logrus-datadog-hook: batching, delivery and shutdown

    A shallow embedding of the two Datadog hooks of the repository:

    - the top-level hook, configured through an [Options] struct
      (package [datadog], functions [New], [Close], [Fire], [buildUrl],
      [batch], [send]) -- module [Hook] below;
    - the older copy under [datadog/datadog.go], configured through
      environment variables ([getenvOrDefault], [New], [Close], [Fire],
      [datadogURL], [batch], [send]) -- module [EnvHook] below.

    The two [send] functions and the two consumer loops of [batch] have the
    same text up to the name of the URL builder and the place errors are
    written to; they are embedded once, in the section [Sender] and the
    section [Accumulator].

    Goroutines are modelled by the events they react to: one iteration of
    the consumer loop (an entry received from [entryC]), one iteration of
    the ticker loop (a tick or, in the top-level hook, the [done] signal).
    Each iteration is taken as atomic. Three things are outside this model:
    two iterations that overlap (the two goroutines of [batch] share
    [batch] and [size] without a lock, and [send] waits for the transport
    inside an iteration); the time between the return of a batched [Fire]
    and the consumer's iteration on its entry; and a call made before the
    goroutines launched by [New] have started. The properties below that
    depend on them say so. *)

From Stdlib Require Import ZArith List String Bool Lia.
From Stdlib.Strings Require Import Byte.
Import ListNotations.
Local Open Scope Z_scope.

(** ** Go values *)

(** [int] on the 64-bit targets: two's complement wrap-around. *)
Definition int_min : Z := - 2 ^ 63.
Definition int_max : Z := 2 ^ 63 - 1.
Definition is_int (z : Z) : Prop := int_min <= z <= int_max.
Definition wrap (z : Z) : Z := (z + 2 ^ 63) mod 2 ^ 64 - 2 ^ 63.
Definition int_add (a b : Z) : Z := wrap (a + b).

(** [[]byte] and [len]. *)
Definition Line : Type := list byte.
Definition len {A : Type} (l : list A) : Z := Z.of_nat (List.length l).

(** The errors the hooks create or pass on. *)
Inductive error : Type :=
| ErrNoApiKey                      (* "apiKey not provided, cannot create datadog hook" *)
| ErrTooLarge (limit size : Z)     (* "could not send log as it was too large! ..." *)
| ErrSendFailed (maxRetry : Z)     (* "failed to send after %d retries" *)
| ErrExternal (msg : string).      (* an error returned by a library call *)

Inductive Result (A : Type) : Type :=
| Ok (a : A)
| Err (e : error).
Arguments Ok {A} a.
Arguments Err {A} e.

(** ** Constants (the [const] block, the same in both files) *)

Definition maxContentSize : Z := 5 * 1024 * 1024.
Definition maxLogSize : Z := 256 * 1024.
Definition maxLogCount : Z := 1000.
Definition basePath : string := "/v1/input".
Definition apiKeyHeader : string := "DD-API-KEY".
Definition defaultMaxRetries : Z := 5.

(** ** What lies outside the repository

    [net/http], [net/url], [os] and [strconv] are not part of the
    repository; the hooks are embedded over a record of these calls. The
    transport answers the call of [Do] that follows [n] earlier calls with
    [http_Do n]. *)

Record Request : Type := mkRequest {
  req_method : string;
  req_url : string;
  req_header : list (string * string);
  req_body : list byte
}.

Definition set_header (h : list (string * string)) (r : Request) : Request :=
  mkRequest (req_method r) (req_url r) h (req_body r).

Inductive Response : Type :=
| TransportError                   (* [err != nil] *)
| Status (code : Z).               (* [resp.StatusCode] *)

Record Platform : Type := mkPlatform {
  url_Parse : string -> Result string;
  url_Query : list (string * string) -> string;
  http_NewRequest : string -> string -> list byte -> Result Request;
  http_Do : nat -> Request -> Response;
  os_Getenv : string -> string;
  strconv_ParseInt : string -> Z -> Z -> Result Z
}.

(** What the hook has done so far, as three traces: the batches [send] was
    called with; the requests [http.DefaultClient.Do] was called with, one
    element for each delivery attempt; and the errors written to the error
    channel (older hook) or printed (top-level hook). A request is the
    value built by [http.NewRequest]; the state of its body reader between
    two attempts is not modelled. *)
Record World : Type := mkWorld {
  handed : list (list Line);
  requests : list Request;
  reported : list error
}.

Definition world0 : World := mkWorld [] [] [].

Definition hand (b : list Line) (w : World) : World :=
  mkWorld (handed w ++ [b]) (requests w) (reported w).
Definition wire (r : Request) (w : World) : World :=
  mkWorld (handed w) (requests w ++ [r]) (reported w).
Definition report (e : error) (w : World) : World :=
  mkWorld (handed w) (requests w) (reported w ++ [e]).

(** ** The Sender: [send] *)

Section Sender.

Variable P : Platform.

(** The fields of the hook that [send] reads, and the result of its URL
    builder ([buildUrl] in the top-level hook, [datadogURL] in the older
    one). *)
Record SenderConfig : Type := mkSenderConfig {
  cfg_ApiKey : string;
  cfg_MaxRetry : Z;
  cfg_url : Result string
}.

(** The framing loop of [send]:
    [for i, line := range batch { if i == 0 {'['}; line; if i == len-1 {']'; continue}; ',' }]. *)
Fixpoint frame_loop (n i : Z) (rest : list Line) (buf : list byte) : list byte :=
  match rest with
  | [] => buf
  | line :: rest' =>
      let buf1 := if i =? 0 then buf ++ ["["%byte] else buf in
      let buf2 := buf1 ++ line in
      if i =? n - 1
      then frame_loop n (i + 1) rest' (buf2 ++ ["]"%byte])
      else frame_loop n (i + 1) rest' (buf2 ++ [","%byte])
  end.

Definition frame (batch : list Line) : list byte :=
  frame_loop (len batch) 0 batch [].

(** [err != nil || resp.StatusCode >= 400] (written [> 399] in the older
    file). *)
Definition failed (r : Response) : bool :=
  match r with
  | TransportError => true
  | Status code => code >=? 400
  end.

(** The retry loop [for { ... }] of [send]; one unit of fuel per
    iteration, [None] when the loop has not returned within the fuel. *)
Fixpoint send_loop (fuel : nat) (maxRetry : Z) (req : Request) (i : Z) (w : World)
  : option World :=
  match fuel with
  | O => None
  | S fuel' =>
      let resp := http_Do P (List.length (requests w)) req in
      let w1 := wire req w in
      if failed resp then
        let i1 := int_add i 1 in
        if (maxRetry <? 0) || (i1 >=? maxRetry)
        then Some (report (ErrSendFailed maxRetry) w1)
        else send_loop fuel' maxRetry req i1 w1
      else Some w1
  end.

(** The part of [send] before the retry loop: [None] when [send] returns
    without a request (nothing to send), [Some (Err e)] when it reports
    [e] and returns, [Some (Ok req)] when the loop is entered with [req]. *)
Definition prepare (c : SenderConfig) (batch : list Line) : option (Result Request) :=
  if (String.eqb (cfg_ApiKey c) "") || (len batch =? 0) then None
  else
    let buf := frame batch in
    if len buf =? 0 then None
    else
      match cfg_url c with
      | Err e => Some (Err e)
      | Ok url =>
          match http_NewRequest P "POST" url buf with
          | Err e => Some (Err e)
          | Ok req =>
              let header := [(apiKeyHeader, cfg_ApiKey c);
                             ("Content-Type"%string, "application/json"%string)] in
              Some (Ok (set_header header req))
          end
      end.

Definition send_fuel (fuel : nat) (c : SenderConfig) (batch : list Line) (w : World)
  : option World :=
  let w0 := hand batch w in
  match prepare c batch with
  | None => Some w0
  | Some (Err e) => Some (report e w0)
  | Some (Ok req) => send_loop fuel (cfg_MaxRetry c) req 0 w0
  end.

(** The loop returns within [max 1 MaxRetry] iterations (see
    [send_loop_trace] and [send_returns] below), so [send] is a total
    function. *)
Definition attempts_bound (maxRetry : Z) : nat := Z.to_nat (Z.max 1 maxRetry).

Definition send (c : SenderConfig) (batch : list Line) (w : World) : World :=
  match send_fuel (attempts_bound (cfg_MaxRetry c)) c batch w with
  | Some w' => w'
  | None => w
  end.

End Sender.

(** ** The Accumulator: the two loops of [batch] *)

Section Accumulator.

Variable P : Platform.
Variable Entry : Type.                       (* [logrus.Entry] *)
Variable format : Entry -> Result Line.      (* [h.Formatter.Format] *)
Variable c : SenderConfig.

(** The two variables the goroutines of [batch] share. *)
Record Buffer : Type := mkBuffer {
  batch : list Line;
  size : Z
}.

(** [var batch [][]byte; size := 0], and
    [batch = make([][]byte, 0, maxLogCount); size = 0]. *)
Definition buffer0 : Buffer := mkBuffer [] 0.

(** One iteration of [for entry := range h.entryC]: the loop goes on
    ([Next]) or the goroutine returns ([Return]). *)
Inductive Iter : Type :=
| Next (b : Buffer) (w : World)
| Return (b : Buffer) (w : World).

Definition consume (entry : Entry) (b : Buffer) (w : World) : Iter :=
  match format entry with
  | Err e => Return b (report e w)
  | Ok formatted =>
      let '(b1, w1) :=
        if (int_add (size b) (len formatted) >=? maxContentSize)
           || (len (batch b) =? maxLogCount)
        then (buffer0, send P c (batch b) w)
        else (b, w) in
      if len formatted >? maxLogSize
      then Return b1 (report (ErrTooLarge maxLogSize (len formatted)) w1)
      else Next (mkBuffer (batch b1 ++ [formatted])
                          (int_add (size b1) (len formatted))) w1
  end.

(** One iteration of the ticker loop on a tick:
    [h.send(batch); batch = make(...); size = 0]. *)
Definition tick (b : Buffer) (w : World) : Buffer * World :=
  (buffer0, send P c (batch b) w).

(** The buffer together with whether the consumer goroutine is still in
    its loop. *)
Record Acc : Type := mkAcc {
  buf : Buffer;
  consuming : bool
}.

Definition acc0 : Acc := mkAcc buffer0 true.

(** [h.entryC <- entry] is an unbuffered send: it completes when the
    consumer receives the entry, and blocks for ever ([None]) once the
    consumer has returned. The iteration of the consumer on the entry is
    run together with the receive. *)
Definition on_entry (entry : Entry) (a : Acc) (w : World) : option (Acc * World) :=
  if consuming a then
    match consume entry (buf a) w with
    | Next b w' => Some (mkAcc b true, w')
    | Return b w' => Some (mkAcc b false, w')
    end
  else None.

Definition on_tick (a : Acc) (w : World) : Acc * World :=
  let '(b, w') := tick (buf a) w in (mkAcc b (consuming a), w').

Inductive Event : Type :=
| Append (entry : Entry)
| FlushNow.

Definition step (ev : Event) (a : Acc) (w : World) : option (Acc * World) :=
  match ev with
  | Append entry => on_entry entry a w
  | FlushNow => Some (on_tick a w)
  end.

Fixpoint run (evs : list Event) (a : Acc) (w : World) : option (Acc * World) :=
  match evs with
  | [] => Some (a, w)
  | ev :: evs' =>
      match step ev a w with
      | Some (a', w') => run evs' a' w'
      | None => None
      end
  end.

End Accumulator.

Arguments Append {Entry} entry.
Arguments FlushNow {Entry}.

(** The outcome of a call made by the application: it returns, it blocks
    for ever, or it panics. *)
Inductive Call (A S : Type) : Type :=
| Returns (a : A) (s : S) (w : World)
| Blocks (s : S) (w : World)
| Panics (s : S) (w : World).
Arguments Returns {A S} a s w.
Arguments Blocks {A S} s w.
Arguments Panics {A S} s w.

(** ** The top-level hook (configured by [Options]) *)

Module Hook.
Section Hook.

Variable P : Platform.
Variable Entry : Type.
(** [&logrus.JSONFormatter{FieldMap: ...}], the formatter [New] installs. *)
Variable JSONFormatter : Entry -> Result Line.

Definition DatadogHostUS : string := "https://http-intake.logs.datadoghq.com".
Definition DatadogHostEU : string := "https://http-intake.logs.datadoghq.eu".
Definition DatadogHostUSGOV : string := "http-intake.logs.ddog-gov.com".

Definition InfoLevel : Z := 4.               (* [logrus.InfoLevel] *)
Definition defaultLevel : Z := InfoLevel.
Definition defaultService : string := "unknown".
Definition defaultHost : string := "unknown".
Definition defaultSource : string := "golang".
Definition defaultClientBatching : bool := true.

Record DatadogHook : Type := mkHook {
  ApiKey : string;
  Service : string;
  Hostname : string;
  Source : string;
  Tags : option (list (string * string));
  ClientBatchingEnabled : bool;
  MinLevel : Z;
  MaxRetry : Z;
  DatadogEndpoint : string;
  Formatter : Entry -> Result Line
}.

Record Options : Type := mkOptions {
  opt_ApiKey : option string;
  opt_MinimumLoggingLevel : option Z;
  opt_DatadogEndpoint : option string;
  opt_Service : option string;
  opt_Host : option string;
  opt_Source : option string;
  opt_GlobalTags : option (list (string * string));
  opt_ClientBatchingEnabled : option bool
}.

Definition noOptions : Options :=
  mkOptions None None None None None None None None.

(** The goroutines, channels, ticker and wait group of a hook. *)
Record State : Type := mkState {
  acc : Acc;                   (* the variables of [batch] and its consumer loop *)
  batching : bool;             (* [go hook.batch(...)] was run *)
  ticking : bool;              (* the ticker goroutine is in its loop *)
  wg : Z;                      (* the counter of [h.wg] *)
  entryC_closed : bool;
  ticker_stopped : bool
}.

Definition or_default {A : Type} (o : option A) (d : A) : A :=
  match o with Some a => a | None => d end.

Definition New (options : option Options) : Result (DatadogHook * State) :=
  let options := or_default options noOptions in
  let batchingEnabled := or_default (opt_ClientBatchingEnabled options) defaultClientBatching in
  let level := or_default (opt_MinimumLoggingLevel options) defaultLevel in
  match opt_ApiKey options with
  | None => Err ErrNoApiKey
  | Some apiKey =>
      if String.eqb apiKey "" then Err ErrNoApiKey
      else
        let endpoint :=
          match opt_DatadogEndpoint options with
          | None => DatadogHostUS
          | Some e => if String.eqb e "" then DatadogHostUS else e
          end in
        let hook :=
          mkHook apiKey
                 (or_default (opt_Service options) defaultService)
                 (or_default (opt_Host options) defaultHost)
                 (or_default (opt_Source options) defaultSource)
                 (opt_GlobalTags options)
                 batchingEnabled
                 level
                 5
                 endpoint
                 JSONFormatter in
        (* [if hook.ClientBatchingEnabled { go hook.batch(hook.ticker.C) }]:
           [batch] adds 1 to [h.wg] for each of its two goroutines *)
        if ClientBatchingEnabled hook
        then Ok (hook, mkState acc0 true true 2 false false)
        else Ok (hook, mkState (mkAcc buffer0 false) false false 0 false false)
  end.

Definition buildUrl (h : DatadogHook) : Result string :=
  match url_Parse P (String.append (DatadogEndpoint h) basePath) with
  | Err e => Err e
  | Ok u =>
      let parameters : list (string * string) :=
        [("ddsource"%string, "golang"%string);
         ("service"%string, Service h);
         ("hostname"%string, Hostname h)] in
      let tag (kv : string * string) : string :=
        String.append (fst kv) (String.append ":" (snd kv)) in
      let parameters :=
        match Tags h with
        | Some tags =>
            List.app parameters [("ddtags"%string, String.concat "," (map tag tags))]
        | None => parameters
        end in
      Ok (String.append u (String.append "?" (url_Query P parameters)))
  end.

Definition config (h : DatadogHook) : SenderConfig :=
  mkSenderConfig (ApiKey h) (MaxRetry h) (buildUrl h).

Definition send (h : DatadogHook) (batch : list Line) (w : World) : World :=
  send P (config h) batch w.

Definition with_acc (s : State) (a : Acc) : State :=
  mkState a (batching s) (ticking s) (wg s) (entryC_closed s) (ticker_stopped s).

(** The consumer goroutine leaves its loop; [defer h.wg.Done()] runs. *)
Definition consumer_done (s : State) : State :=
  mkState (mkAcc (buf (acc s)) false) (batching s) (ticking s) (wg s - 1)
          (entryC_closed s) (ticker_stopped s).

Definition Fire (h : DatadogHook) (entry : Entry) (s : State) (w : World)
  : Call (option error) State :=
  if ClientBatchingEnabled h then
    (* [h.entryC <- *entry] *)
    if entryC_closed s then Panics s w
    else
      match on_entry P Entry (Formatter h) (config h) entry (acc s) w with
      | Some (a, w') =>
          let s' := with_acc s a in
          Returns None (if consuming a then s' else consumer_done s') w'
      | None => Blocks s w
      end
  else
    match Formatter h entry with
    | Err e => Returns (Some e) s w
    | Ok formatted =>
        (* Batching is disabled, just send the single log now *)
        Returns None s (send h [formatted] w)
    end.

(** A tick of [h.ticker]: the [case <-ticker] of the ticker goroutine. *)
Definition Tick (h : DatadogHook) (s : State) (w : World) : State * World :=
  if ticking s && negb (ticker_stopped s) then
    let '(b, w') := tick P (config h) (buf (acc s)) w in
    (with_acc s (mkAcc b (consuming (acc s))), w')
  else (s, w).

(** [Close]: [close(h.entryC)] ends the consumer loop, [h.ticker.Stop()],
    the [done] signal makes the ticker goroutine send the batch and
    return, [h.wg.Wait()] waits for both, [close(h.done)]. *)
Definition Close (h : DatadogHook) (s : State) (w : World) : Call unit State :=
  if entryC_closed s then Panics s w          (* close of a closed channel *)
  else
    let s1 := if consuming (acc s) then consumer_done s else s in
    let s2 := mkState (acc s1) (batching s1) (ticking s1) (wg s1) true true in
    if ticking s2 then
      (* [case <-h.done]: [h.send(batch); return], then the deferred [Done] *)
      let w' := send h (batch (buf (acc s2))) w in
      let s3 := mkState (acc s2) (batching s2) false (wg s2 - 1) true true in
      if wg s3 =? 0 then Returns tt s3 w' else Blocks s3 w'
    else
      (* nobody receives from [h.done]: the sending goroutine is still
         blocked when [close(h.done)] runs *)
      if wg s2 =? 0 then Panics s2 w else Blocks s2 w.

End Hook.
End Hook.

(** ** The older hook under [datadog/] (configured by the environment) *)

Module EnvHook.
Section EnvHook.

Variable P : Platform.
Variable Entry : Type.
Variable JSONFormatter : Entry -> Result Line.

Definition datadogHostUS : string := "https://http-intake.logs.datadoghq.com".
Definition datadogHostEU : string := "https://http-intake.logs.datadoghq.eu".

Record GlobalTags : Type := mkGlobalTags {
  Service : string;
  Environment : string;
  Maintainer : string;
  Application : string;
  Hostname : string
}.

Record DatadogHook : Type := mkHook {
  ApiKey : string;
  Tags : GlobalTags;
  MinLevel : Z;
  MaxRetry : Z;
  datadogEndpoint : string;
  formatter : Entry -> Result Line
}.

(** The ticker goroutine of this hook ([for range ticker]) never leaves
    its loop, so it is not part of the state. *)
Record State : Type := mkState {
  acc : Acc;
  wg : Z;
  entryC_closed : bool;
  ticker_stopped : bool
}.

Definition getenvOrDefault (key defaultString : string) : string :=
  let val := os_Getenv P key in
  if negb (String.eqb val "") then val else defaultString.

(** [strings.ToLower] on the ASCII letters. *)
Definition lower_ascii (a : Ascii.ascii) : Ascii.ascii :=
  let n := Ascii.nat_of_ascii a in
  if (65 <=? n)%nat && (n <=? 90)%nat then Ascii.ascii_of_nat (n + 32) else a.

Fixpoint ToLower (s : string) : string :=
  match s with
  | EmptyString => EmptyString
  | String a s' => String (lower_ascii a) (ToLower s')
  end.

Definition New (apiKey : option string) (minLevel : Z) : Result (DatadogHook * State) :=
  let globalTags :=
    mkGlobalTags (getenvOrDefault "SERVICE" "unknown")
                 (getenvOrDefault "ENVIRONMENT" "unknown")
                 (getenvOrDefault "MAINTAINER" "unknown")
                 (getenvOrDefault "APPLICATION" "unknown")
                 (getenvOrDefault "HOST" "0.0.0.0") in
  let region := os_Getenv P "DATADOG_REGION" in
  let apiKey :=
    match apiKey with
    | None => os_Getenv P "DATADOG_API_KEY"
    | Some k => k
    end in
  if String.eqb apiKey "" then Err ErrNoApiKey
  else
    let maxRetry :=
      match strconv_ParseInt P (getenvOrDefault "DATADOG_MAX_RETRIES" "5") 0 32 with
      | Ok n => n
      | Err _ => defaultMaxRetries
      end in
    let endpoint :=
      if String.eqb (ToLower region) "eu" then datadogHostEU else datadogHostUS in
    Ok (mkHook apiKey globalTags minLevel maxRetry endpoint JSONFormatter,
        mkState acc0 2 false false).

Definition datadogURL (h : DatadogHook) : Result string :=
  match url_Parse P (String.append (datadogEndpoint h) basePath) with
  | Err e => Err e
  | Ok u =>
      let o := Tags h in
      let tags : list string :=
        [String.append "environment:" (Environment o);
         String.append "application:" (Application o);
         String.append "service:" (Service o);
         String.append "maintainer:" (Maintainer o);
         String.append "reference:"
           (String.concat "." [Maintainer o; Application o; Service o; Environment o])] in
      let parameters : list (string * string) :=
        [("ddsource"%string, "golang"%string);
         ("service"%string, Service o);
         ("hostname"%string, Hostname o);
         ("ddtags"%string, String.concat "," tags)] in
      Ok (String.append u (String.append "?" (url_Query P parameters)))
  end.

Definition config (h : DatadogHook) : SenderConfig :=
  mkSenderConfig (ApiKey h) (MaxRetry h) (datadogURL h).

Definition send (h : DatadogHook) (batch : list Line) (w : World) : World :=
  send P (config h) batch w.

Definition with_acc (s : State) (a : Acc) : State :=
  mkState a (wg s) (entryC_closed s) (ticker_stopped s).

(** [Fire]: [h.entryC <- *entry; return nil]. The consumer loop calls
    [h.wg.Done()] only after the loop, not on its two [return]s. *)
Definition Fire (h : DatadogHook) (entry : Entry) (s : State) (w : World)
  : Call (option error) State :=
  if entryC_closed s then Panics s w
  else
    match on_entry P Entry (formatter h) (config h) entry (acc s) w with
    | Some (a, w') => Returns None (with_acc s a) w'
    | None => Blocks s w
    end.

Definition Tick (h : DatadogHook) (s : State) (w : World) : State * World :=
  if ticker_stopped s then (s, w)
  else
    let '(a, w') := on_tick P (config h) (acc s) w in (with_acc s a, w').

(** [Close]: [close(h.entryC)] ends the consumer loop, which then calls
    [h.wg.Done()]; [h.ticker.Stop()] stops the ticks without closing the
    ticker's channel; [h.wg.Wait()]; [close(h.errorC)]. *)
Definition Close (h : DatadogHook) (s : State) (w : World) : Call unit State :=
  if entryC_closed s then Panics s w
  else
    let s1 :=
      if consuming (acc s)
      then mkState (mkAcc (buf (acc s)) false) (wg s - 1) true (ticker_stopped s)
      else mkState (acc s) (wg s) true (ticker_stopped s) in
    let s2 := mkState (acc s1) (wg s1) true true in
    if wg s2 =? 0 then Returns tt s2 w else Blocks s2 w.

(** What the application and the ticker do to a running hook. *)
Inductive Action : Type :=
| DoFire (entry : Entry)
| DoTick.

(** A sequence of such actions; [None] when a [Fire] does not return. *)
Fixpoint play (h : DatadogHook) (acts : list Action) (s : State) (w : World)
  : option (State * World) :=
  match acts with
  | [] => Some (s, w)
  | DoFire entry :: acts' =>
      match Fire h entry s w with
      | Returns _ s' w' => play h acts' s' w'
      | _ => None
      end
  | DoTick :: acts' =>
      let '(s', w') := Tick h s w in play h acts' s' w'
  end.

End EnvHook.
End EnvHook.

(** ** Sample inputs, used to run the definitions *)

Module Sample.

(** Entries that either carry their encoded line or cannot be encoded. *)
Definition entry : Type := option Line.

Definition format (e : entry) : Result Line :=
  match e with
  | Some l => Ok l
  | None => Err (ErrExternal "json: unsupported type")
  end.

(** A platform whose URL and request constructors succeed, which has an
    empty environment, and whose [ParseInt] is never reached with digits. *)
Definition platform (do : nat -> Request -> Response) : Platform :=
  mkPlatform (fun s => Ok s)
             (fun _ => "ddsource=golang"%string)
             (fun m u b => Ok (mkRequest m u [] b))
             do
             (fun _ => ""%string)
             (fun _ _ _ => Err (ErrExternal "strconv.ParseInt: invalid syntax")).

(** The same platform with [DATADOG_MAX_RETRIES] set to a word. *)
Definition platform_env : Platform :=
  mkPlatform (fun s => Ok s)
             (fun _ => "ddsource=golang"%string)
             (fun m u b => Ok (mkRequest m u [] b))
             (fun _ _ => Status 200)
             (fun k => if String.eqb k "DATADOG_MAX_RETRIES" then "many" else "")%string
             (fun s _ _ => if String.eqb s "5" then Ok 5
                           else Err (ErrExternal "strconv.ParseInt: invalid syntax")).

Definition accepting : Platform := platform (fun _ _ => Status 200).
Definition refusing : Platform := platform (fun _ _ => Status 500).
Definition unreachable : Platform := platform (fun _ _ => TransportError).

Definition config (maxRetry : Z) : SenderConfig :=
  mkSenderConfig "apikey" maxRetry (Ok "https://example.test/v1/input"%string).

Definition request (body : list byte) : Request :=
  mkRequest "POST" "https://example.test/v1/input"
            [(apiKeyHeader, "apikey"%string);
             ("Content-Type"%string, "application/json"%string)]
            body.

Definition a : Line := ["a"%byte].
Definition b : Line := ["b"%byte].

(** A line of [n] bytes. *)
Definition line_of (n : Z) : Line := repeat "x"%byte (Z.to_nat n).

(** Options with an API key and batching disabled. *)
Definition unbatched : Hook.Options :=
  Hook.mkOptions (Some "apikey"%string) None None None None None None (Some false).

End Sample.

(** ** Vocabulary of the properties *)

(** [k] more requests [req] on the wire. *)
Definition wire_n (k : nat) (req : Request) (w : World) : World :=
  mkWorld (handed w) (requests w ++ repeat req k) (reported w).

(** The lines of a list, each after a comma. *)
Definition sep_lines (ls : list Line) : list byte :=
  List.concat (map (fun l => ","%byte :: l) ls).

(** The bytes of a batch, as [size] counts them: the sum of the lengths of
    its lines, without the brackets and commas of the payload. *)
Definition content_size (ls : list Line) : Z :=
  fold_right (fun l s => len l + s) 0 ls.

(** A batch within both thresholds, made of lines within the per-line
    maximum. *)
Definition within_thresholds (b : list Line) : Prop :=
  content_size b < maxContentSize /\
  len b <= maxLogCount /\
  Forall (fun l => len l <= maxLogSize) b.

Definition buffer_ok (b : Buffer) : Prop :=
  size b = content_size (batch b) /\ within_thresholds (batch b).

(** Every batch handed to the Sender so far is within both thresholds. *)
Definition flushed_ok (w : World) : Prop := Forall within_thresholds (handed w).

(** The world a call leaves behind. *)
Definition world_of {A S : Type} (r : Call A S) : World :=
  match r with
  | Returns _ _ w | Blocks _ w | Panics _ w => w
  end.

(** ** [Levels], the wrapper package and runs of the top-level hook *)

(** [logrus.AllLevels]: panic, fatal, error, warning, info, debug, trace,
    numbered from 0. *)
Definition AllLevels : list Z := [0; 1; 2; 3; 4; 5; 6].

(** [Levels], the same in both hooks: [logrus.AllLevels[:h.MinLevel+1]].
    [logrus.Level] is a [uint32], so the sum wraps at [2^32]; the slice
    expression panics ([None]) when its bound is over the capacity of
    [AllLevels]. *)
Definition Levels (minLevel : Z) : option (list Z) :=
  let n := (minLevel + 1) mod 2 ^ 32 in
  if n <=? len AllLevels then Some (firstn (Z.to_nat n) AllLevels) else None.

(** The package [gfsLogger], which builds a logger around the hook of
    [datadog/]. *)
Module GfsLogger.
Section GfsLogger.

Variable P : Platform.
Variable Entry : Type.
Variable JSONFormatter : Entry -> Result Line.

Record Options : Type := mkOptions {
  ApiKey : string;
  Level : Z                         (* [logrus.Level], a [uint32] *)
}.

(** The hooks added to the logger. *)
Inductive LoggerHook : Type :=
| WriterHook                                        (* [&writer.Hook{Writer: os.Stdout, ...}] *)
| DatadogHook (h : EnvHook.DatadogHook Entry).

(** A logger: its hooks, each with the levels it was registered under,
    in the order they were added. *)
Record Logger : Type := mkLogger {
  hooks : list (LoggerHook * list Z);
  warnings : list string;           (* what [logger.Warn] was called with *)
  exit_closes : bool                (* [logrus.DeferExitHandler(hook.Close)] was run *)
}.

(** [logger.AddHook(hook)] calls [hook.Levels()] and stores the hook under
    each of these levels; it panics ([None]) when [Levels] does. *)
Definition AddHook (hook : LoggerHook) (levels : option (list Z)) (l : Logger)
  : option Logger :=
  match levels with
  | Some ls => Some (mkLogger (hooks l ++ [(hook, ls)]) (warnings l) (exit_closes l))
  | None => None
  end.

(** [New]; [None] when it panics. The writer hook is made with
    [LogLevels: logrus.AllLevels], which its [Levels] returns. *)
Definition New (options : Options) : option (Result (Logger * option EnvHook.State)) :=
  match AddHook WriterHook (Some AllLevels) (mkLogger [] [] false) with
  | None => None
  | Some logger =>
      if String.eqb (ApiKey options) "" then
        Some (Ok (mkLogger (hooks logger)
                           ["apiKey is not provided, logs will not be sent to datadog"%string]
                           false,
                  None))
      else
        match EnvHook.New P Entry JSONFormatter (Some (ApiKey options)) (Level options) with
        | Err e => Some (Err e)
        | Ok (hook, s) =>
            match AddHook (DatadogHook hook) (Levels (EnvHook.MinLevel Entry hook)) logger with
            | None => None
            | Some logger' =>
                Some (Ok (mkLogger (hooks logger') (warnings logger') true, Some s))
            end
        end
  end.

End GfsLogger.
End GfsLogger.

(** What the application and the ticker do to a running top-level hook. *)
Module HookRun.
Section HookRun.

Variable P : Platform.
Variable Entry : Type.

Inductive Action : Type :=
| DoFire (entry : Entry)
| DoTick.

(** A sequence of such actions; [None] when a [Fire] does not return. *)
Fixpoint play (h : Hook.DatadogHook Entry) (acts : list Action)
  (s : Hook.State) (w : World) : option (Hook.State * World) :=
  match acts with
  | [] => Some (s, w)
  | DoFire entry :: acts' =>
      match Hook.Fire P Entry h entry s w with
      | Returns _ s' w' => play h acts' s' w'
      | _ => None
      end
  | DoTick :: acts' =>
      let '(s', w') := Hook.Tick P Entry h s w in play h acts' s' w'
  end.

(** The entries fired, in order. *)
Definition fired (acts : list Action) : list Entry :=
  flat_map (fun act => match act with DoFire entry => [entry] | DoTick => [] end) acts.

End HookRun.
End HookRun.

(** The line an entry contributes to the batches: its encoding, unless the
    encoding fails or is over [maxLogSize]. *)
Definition accepted {Entry : Type} (format : Entry -> Result Line) (entry : Entry)
  : list Line :=
  match format entry with
  | Ok l => if len l >? maxLogSize then [] else [l]
  | Err _ => []
  end.

(** The entries appended by a sequence of events, in order. *)
Definition entries_of {Entry : Type} (evs : list (Event Entry)) : list Entry :=
  flat_map (fun ev => match ev with Append entry => [entry] | FlushNow => [] end) evs.

(** The lines handed off so far, followed by the lines in the buffer. *)
Definition lines_so_far (a : Acc) (w : World) : list Line :=
  List.concat (handed w) ++ batch (buf a).

(** The hook with another [Source]. *)
Definition with_source {Entry : Type} (h : Hook.DatadogHook Entry) (source : string)
  : Hook.DatadogHook Entry :=
  Hook.mkHook Entry (Hook.ApiKey Entry h) (Hook.Service Entry h) (Hook.Hostname Entry h)
              source (Hook.Tags Entry h) (Hook.ClientBatchingEnabled Entry h)
              (Hook.MinLevel Entry h) (Hook.MaxRetry Entry h)
              (Hook.DatadogEndpoint Entry h) (Hook.Formatter Entry h).

(** The line of an entry when it can be encoded. *)
Definition encoded {Entry : Type} (format : Entry -> Result Line) (entry : Entry)
  : list Line :=
  match format entry with
  | Ok l => [l]
  | Err _ => []
  end.

(** A platform whose [url.Parse] refuses every URL. *)
Definition no_url : Platform :=
  mkPlatform (fun _ => Err (ErrExternal "parse: invalid URL"))
             (fun _ => "ddsource=golang"%string)
             (fun m u b => Ok (mkRequest m u [] b))
             (fun _ _ => Status 200)
             (fun _ => ""%string)
             (fun _ _ _ => Err (ErrExternal "strconv.ParseInt: invalid syntax")).

(** A transport that refuses the first two requests and accepts the third. *)
Definition third_time : Platform :=
  Sample.platform (fun n _ => if (n <? 2)%nat then Status 503 else Status 200).

(** * Properties *)

(** ** Integers and lengths *)

(** Closes [is_int z] for a numeral [z]. *)
Ltac int_range := unfold is_int, int_min, int_max; simpl; lia.

Lemma wrap_id (z : Z) : is_int z -> wrap z = z.
Proof.
  unfold is_int, int_min, int_max, wrap. intros H.
  rewrite Z.mod_small; lia.
Qed.

Lemma len_nonneg {A : Type} (l : list A) : 0 <= len l.
Proof. unfold len. lia. Qed.

Lemma len_app {A : Type} (l1 l2 : list A) : len (l1 ++ l2) = len l1 + len l2.
Proof. unfold len. rewrite length_app. lia. Qed.

Lemma len_nil_iff {A : Type} (l : list A) : len l = 0 <-> l = [].
Proof.
  unfold len. destruct l; simpl; split; intros H; try reflexivity; try discriminate; lia.
Qed.

(** ** The Sender *)

Lemma wire_n_wire (k : nat) (req : Request) (w : World) :
  wire_n k req (wire req w) = wire_n (S k) req w.
Proof.
  unfold wire_n, wire. simpl. rewrite <- app_assoc. reflexivity.
Qed.

Section SenderFacts.

Variable P : Platform.

(** The framing loop after the first line, entered with a buffer that
    ends with a comma: the remaining lines, a comma before each but the
    first, then the closing bracket. *)
Lemma frame_loop_rest (n : Z) (rest : list Line) :
  forall (i : Z) (buf : list byte),
  0 < i -> i + len rest = n -> rest <> [] ->
  frame_loop n i rest (buf ++ [","%byte]) = buf ++ sep_lines rest ++ ["]"%byte].
Proof.
  induction rest as [|l rest IH]; intros i buf Hi Hn Hne.
  - contradiction.
  - cbn [frame_loop].
    destruct (Z.eqb_spec i 0) as [->|_]; [lia|].
    change (len (l :: rest)) with (len ([l] ++ rest)) in Hn.
    rewrite len_app in Hn. change (len [l]) with 1 in Hn.
    unfold sep_lines. cbn [map List.concat]. fold (sep_lines rest).
    destruct rest as [|l' rest'].
    + change (len (@nil Line)) with 0 in Hn.
      destruct (Z.eqb_spec i (n - 1)) as [_|Hc]; [|lia].
      cbn [frame_loop sep_lines map List.concat].
      rewrite app_nil_r, <- !app_assoc. reflexivity.
    + pose proof (len_nonneg rest') as Hr.
      change (len (l' :: rest')) with (len ([l'] ++ rest')) in Hn.
      rewrite len_app in Hn. change (len [l']) with 1 in Hn.
      destruct (Z.eqb_spec i (n - 1)) as [Hc|_]; [lia|].
      rewrite (IH (i + 1) ((buf ++ [","%byte]) ++ l)).
      * rewrite <- !app_assoc. reflexivity.
      * lia.
      * change (len (l' :: rest')) with (len ([l'] ++ rest')).
        rewrite len_app. change (len [l']) with 1. lia.
      * discriminate.
Qed.

(** The payload of a batch: an opening bracket, the lines joined by
    commas, a closing bracket. *)
Lemma frame_spec (l : Line) (ls : list Line) :
  frame (l :: ls) = ["["%byte] ++ l ++ sep_lines ls ++ ["]"%byte].
Proof.
  unfold frame. cbn [frame_loop]. change (0 =? 0) with true. cbv iota.
  change (len (l :: ls)) with (len ([l] ++ ls)). rewrite len_app. change (len [l]) with 1.
  destruct ls as [|l' ls'].
  - reflexivity.
  - pose proof (len_nonneg ls') as Hr.
    change (len (l' :: ls')) with (len ([l'] ++ ls')) in *.
    rewrite len_app in *. change (len [l']) with 1 in *.
    destruct (Z.eqb_spec 0 (1 + (1 + len ls') - 1)) as [Hc|_]; [lia|].
    rewrite (frame_loop_rest (1 + (1 + len ls')) (l' :: ls') (0 + 1) (([] ++ ["["%byte]) ++ l)).
    + rewrite <- !app_assoc. reflexivity.
    + lia.
    + change (len (l' :: ls')) with (len ([l'] ++ ls')).
      rewrite len_app. change (len [l']) with 1. lia.
    + discriminate.
Qed.

(** The payload of a batch of one line is that line between brackets. *)
Lemma frame_single (l : Line) : frame [l] = ["["%byte] ++ l ++ ["]"%byte].
Proof. reflexivity. Qed.

Lemma len_sep_lines (ls : list Line) : len (sep_lines ls) = content_size ls + len ls.
Proof.
  induction ls as [|l ls IH].
  - reflexivity.
  - unfold sep_lines. cbn [map List.concat]. fold (sep_lines ls).
    change (","%byte :: l) with ([","%byte] ++ l). rewrite !len_app, IH.
    change (content_size (l :: ls)) with (len l + content_size ls).
    change (len (l :: ls)) with (len ([l] ++ ls)). rewrite len_app.
    change (len [l]) with 1. change (len [","%byte]) with 1. lia.
Qed.

(** The payload is longer than the lines it frames: one byte more for each
    line, and one for the batch. *)
Lemma frame_length (l : Line) (ls : list Line) :
  len (frame (l :: ls)) = content_size (l :: ls) + len (l :: ls) + 1.
Proof.
  rewrite frame_spec, !len_app, len_sep_lines.
  change (content_size (l :: ls)) with (len l + content_size ls).
  change (len (l :: ls)) with (len ([l] ++ ls)). rewrite len_app.
  change (len [l]) with 1. change (len ["["%byte]) with 1. change (len ["]"%byte]) with 1.
  lia.
Qed.

Lemma prepare_ok (c : SenderConfig) (batch : list Line) (url : string) (r : Request) :
  cfg_ApiKey c <> ""%string ->
  batch <> [] ->
  cfg_url c = Ok url ->
  http_NewRequest P "POST" url (frame batch) = Ok r ->
  prepare P c batch =
    Some (Ok (set_header [(apiKeyHeader, cfg_ApiKey c);
                          ("Content-Type"%string, "application/json"%string)] r)).
Proof.
  intros Hkey Hb Hurl Hreq. unfold prepare.
  destruct (String.eqb_spec (cfg_ApiKey c) "") as [E|_]; [contradiction|].
  destruct (Z.eqb_spec (len batch) 0) as [E|_].
  { apply len_nil_iff in E. contradiction. }
  cbn [orb].
  destruct batch as [|l ls]; [contradiction|].
  destruct (Z.eqb_spec (len (frame (l :: ls))) 0) as [E|_].
  { apply len_nil_iff in E. rewrite frame_spec in E. discriminate. }
  rewrite Hurl, Hreq. reflexivity.
Qed.

(** The retry loop, from counter [i]: it returns after some [k] requests,
    at most [max 1 maxRetry - i]; every request but the last failed; the
    last one either succeeded, or failed with the counter at its bound,
    and then the terminal failure is reported. *)
Lemma send_loop_trace (fuel : nat) (maxRetry : Z) (req : Request) :
  is_int maxRetry ->
  forall (i : Z) (w : World),
  0 <= i < Z.max 1 maxRetry ->
  (Z.to_nat (Z.max 1 maxRetry - i) <= fuel)%nat ->
  exists k : nat,
    (1 <= k)%nat /\
    Z.of_nat k <= Z.max 1 maxRetry - i /\
    (forall j, (j < k - 1)%nat ->
       failed (http_Do P (List.length (requests w) + j) req) = true) /\
    ((failed (http_Do P (List.length (requests w) + (k - 1)) req) = false /\
      send_loop P fuel maxRetry req i w = Some (wire_n k req w))
     \/
     (failed (http_Do P (List.length (requests w) + (k - 1)) req) = true /\
      Z.of_nat k = Z.max 1 maxRetry - i /\
      send_loop P fuel maxRetry req i w
        = Some (report (ErrSendFailed maxRetry) (wire_n k req w)))).
Proof.
  intros HM. induction fuel as [|fuel IH]; intros i w Hi Hfuel.
  - exfalso. lia.
  - cbn [send_loop].
    destruct (failed (http_Do P (List.length (requests w)) req)) eqn:Hresp.
    + assert (Hw : int_add i 1 = i + 1).
      { unfold int_add. apply wrap_id. unfold is_int, int_min, int_max in *. lia. }
      rewrite Hw.
      destruct ((maxRetry <? 0) || (i + 1 >=? maxRetry)) eqn:Hstop.
      * exists 1%nat. split; [lia|]. split; [lia|]. split; [intros j Hj; lia|].
        right. rewrite Nat.add_0_r.
        split; [exact Hresp|].
        split.
        -- apply orb_true_iff in Hstop. destruct Hstop as [H|H]; lia.
        -- unfold wire_n, wire. simpl. reflexivity.
      * apply orb_false_iff in Hstop. destruct Hstop as [H1 H2].
        destruct (IH (i + 1) (wire req w)) as (k & Hk1 & Hk2 & Hpre & Hlast); try lia.
        assert (Hlen : List.length (requests (wire req w)) = S (List.length (requests w))).
        { unfold wire. simpl. rewrite length_app. simpl. lia. }
        rewrite Hlen in Hpre, Hlast.
        exists (S k). split; [lia|]. split; [lia|]. split.
        -- intros j Hj. destruct j as [|j].
           ++ rewrite Nat.add_0_r. exact Hresp.
           ++ replace (List.length (requests w) + S j)%nat
                with (S (List.length (requests w)) + j)%nat by lia.
              apply Hpre. lia.
        -- replace (List.length (requests w) + (S k - 1))%nat
             with (S (List.length (requests w)) + (k - 1))%nat by lia.
           rewrite <- wire_n_wire.
           destruct Hlast as [[Ha Hb]|[Ha [Hb Hc]]].
           ++ left. split; assumption.
           ++ right. split; [assumption|]. split; [lia|assumption].
    + exists 1%nat. split; [lia|]. split; [lia|]. split; [intros j Hj; lia|].
      left. rewrite Nat.add_0_r. split; [exact Hresp|].
      unfold wire_n, wire. simpl. reflexivity.
Qed.

End SenderFacts.

Section SendFacts.

Variable P : Platform.

Lemma attempts_bound_pos (maxRetry : Z) : (1 <= attempts_bound maxRetry)%nat.
Proof. unfold attempts_bound. lia. Qed.

Lemma attempts_bound_Z (maxRetry : Z) :
  Z.of_nat (attempts_bound maxRetry) = Z.max 1 maxRetry.
Proof. unfold attempts_bound. lia. Qed.

(** [send] on a batch for which the retry loop is entered with [req]. *)
Lemma send_trace (c : SenderConfig) (batch : list Line) (w : World) (req : Request) :
  is_int (cfg_MaxRetry c) ->
  prepare P c batch = Some (Ok req) ->
  exists k : nat,
    (1 <= k <= attempts_bound (cfg_MaxRetry c))%nat /\
    (forall j, (j < k - 1)%nat ->
       failed (http_Do P (List.length (requests w) + j) req) = true) /\
    ((failed (http_Do P (List.length (requests w) + (k - 1)) req) = false /\
      send P c batch w = wire_n k req (hand batch w))
     \/
     (failed (http_Do P (List.length (requests w) + (k - 1)) req) = true /\
      k = attempts_bound (cfg_MaxRetry c) /\
      send P c batch w
        = report (ErrSendFailed (cfg_MaxRetry c)) (wire_n k req (hand batch w)))).
Proof.
  intros HM Hprep. unfold send, send_fuel. rewrite Hprep.
  destruct (send_loop_trace P (attempts_bound (cfg_MaxRetry c)) (cfg_MaxRetry c) req HM
              0 (hand batch w)) as (k & Hk1 & Hk2 & Hpre & Hlast).
  - lia.
  - unfold attempts_bound. rewrite Z.sub_0_r. lia.
  - change (requests (hand batch w)) with (requests w) in *.
    pose proof (attempts_bound_Z (cfg_MaxRetry c)) as HB.
    exists k. split; [lia|]. split; [exact Hpre|].
    destruct Hlast as [[Ha Hb]|[Ha [Hb Hc]]].
    + left. rewrite Hb. split; [assumption|reflexivity].
    + right. rewrite Hc. split; [assumption|]. split; [lia|reflexivity].
Qed.

(** More fuel does not change the result of the loop. *)
Lemma send_loop_more_fuel (fuel : nat) :
  forall (maxRetry : Z) (req : Request) (i : Z) (w w' : World) (fuel' : nat),
  send_loop P fuel maxRetry req i w = Some w' ->
  (fuel <= fuel')%nat ->
  send_loop P fuel' maxRetry req i w = Some w'.
Proof.
  induction fuel as [|fuel IH]; intros maxRetry req i w w' fuel' Hrun Hle.
  - discriminate.
  - destruct fuel' as [|fuel']; [lia|].
    cbn [send_loop] in *.
    destruct (failed (http_Do P (List.length (requests w)) req)); [|exact Hrun].
    destruct ((maxRetry <? 0) || (int_add i 1 >=? maxRetry)); [exact Hrun|].
    apply (IH _ _ _ _ _ fuel' Hrun). lia.
Qed.

(** [send] returns: with [max 1 MaxRetry] units of fuel or more, the
    fuelled [send] gives the result of [send]. *)
Lemma send_returns (fuel : nat) (c : SenderConfig) (batch : list Line) (w : World) :
  is_int (cfg_MaxRetry c) ->
  (attempts_bound (cfg_MaxRetry c) <= fuel)%nat ->
  send_fuel P fuel c batch w = Some (send P c batch w).
Proof.
  intros HM Hfuel. unfold send, send_fuel.
  destruct (prepare P c batch) as [[req|e]|]; try reflexivity.
  destruct (send_loop_trace P (attempts_bound (cfg_MaxRetry c)) (cfg_MaxRetry c) req HM
              0 (hand batch w)) as (k & _ & _ & _ & Hlast).
  - lia.
  - unfold attempts_bound. rewrite Z.sub_0_r. lia.
  - destruct Hlast as [[_ Hs]|[_ [_ Hs]]]; rewrite Hs;
      apply (send_loop_more_fuel _ _ _ _ _ _ fuel Hs Hfuel).
Qed.

End SendFacts.

(** C1, as the code has it. When an attempt fails, the Sender adds one to
    its attempt counter and stops with a terminal delivery failure as soon
    as [MaxRetry < 0] or the counter has reached [MaxRetry]; otherwise it
    repeats the same request. So the loop returns within [max 1 MaxRetry]
    attempts: it reports the terminal failure exactly when the first
    [max 1 MaxRetry] attempts all fail (after one failed attempt when
    [MaxRetry] is negative), and it returns after the first attempt that
    succeeds otherwise. *)
Theorem C1_send_loop_stops_at_bound
  (P : Platform) (fuel : nat) (maxRetry : Z) (req : Request) (w : World) :
  is_int maxRetry ->
  (attempts_bound maxRetry <= fuel)%nat ->
  exists w' : World,
    send_loop P fuel maxRetry req 0 w = Some w' /\
    ((forall j, (j < attempts_bound maxRetry)%nat ->
        failed (http_Do P (List.length (requests w) + j) req) = true) ->
     w' = report (ErrSendFailed maxRetry) (wire_n (attempts_bound maxRetry) req w)) /\
    (forall k, (k < attempts_bound maxRetry)%nat ->
       (forall j, (j < k)%nat ->
          failed (http_Do P (List.length (requests w) + j) req) = true) ->
       failed (http_Do P (List.length (requests w) + k) req) = false ->
       w' = wire_n (S k) req w) /\
    (maxRetry < 0 ->
     failed (http_Do P (List.length (requests w)) req) = true ->
     w' = report (ErrSendFailed maxRetry) (wire req w)).
Proof.
  intros HM Hfuel.
  pose proof (attempts_bound_Z maxRetry) as HB.
  destruct (send_loop_trace P fuel maxRetry req HM 0 w) as (k & Hk1 & Hk2 & Hpre & Hlast).
  { lia. }
  { rewrite Z.sub_0_r. unfold attempts_bound in Hfuel. exact Hfuel. }
  rewrite Z.sub_0_r in *.
  assert (Hall : (forall j, (j < attempts_bound maxRetry)%nat ->
                    failed (http_Do P (List.length (requests w) + j) req) = true) ->
                 send_loop P fuel maxRetry req 0 w
                 = Some (report (ErrSendFailed maxRetry)
                           (wire_n (attempts_bound maxRetry) req w))).
  { intros Hfail.
    destruct Hlast as [[Ha Hb]|[Ha [Hb Hc]]].
    - rewrite Hfail in Ha by lia. discriminate.
    - replace (attempts_bound maxRetry) with k by lia. exact Hc. }
  destruct Hlast as [[Ha Hb]|[Ha [Hb Hc]]].
  - exists (wire_n k req w). split; [exact Hb|]. split; [|split].
    + intros Hfail. apply Hall in Hfail. congruence.
    + intros k0 Hk0 Hbefore Hok.
      assert (k0 = (k - 1)%nat) as ->.
      { destruct (Nat.lt_trichotomy k0 (k - 1)) as [Hlt|[Heq|Hgt]].
        - rewrite Hpre in Hok by exact Hlt. discriminate.
        - exact Heq.
        - rewrite Hbefore in Ha by exact Hgt. discriminate. }
      replace (S (k - 1)) with k by lia. reflexivity.
    + intros Hneg Hfirst.
      assert (k = 1%nat) as -> by lia.
      simpl in Ha. rewrite Nat.add_0_r in Ha. congruence.
  - exists (report (ErrSendFailed maxRetry) (wire_n k req w)).
    split; [exact Hc|]. split; [|split].
    + intros Hfail. apply Hall in Hfail. congruence.
    + intros k0 Hk0 Hbefore Hok.
      exfalso.
      destruct (Nat.lt_trichotomy k0 (k - 1)) as [Hlt|[Heq|Hgt]].
      * rewrite Hpre in Hok by exact Hlt. discriminate.
      * subst k0. congruence.
      * lia.
    + intros Hneg Hfirst.
      assert (k = 1%nat) as -> by lia.
      unfold wire_n, wire. reflexivity.
Qed.

Lemma C1_send_loop_stops_at_bound_witness :
  is_int 3 /\ (attempts_bound 3 <= 4)%nat /\
  exists w' : World,
    send_loop Sample.refusing 4 3 (Sample.request Sample.a) 0 world0 = Some w' /\
    w' = report (ErrSendFailed 3) (wire_n 3 (Sample.request Sample.a) world0).
Proof.
  split; [int_range|].
  split; [unfold attempts_bound; simpl; lia|].
  destruct (C1_send_loop_stops_at_bound Sample.refusing 4 3 (Sample.request Sample.a) world0)
    as (w' & Hrun & Hall & _).
  - int_range.
  - unfold attempts_bound; simpl; lia.
  - exists w'. split; [exact Hrun|]. apply Hall. intros j _. reflexivity.
Defined.

(** C1, as stated, fails for a negative [MaxRetry]: with [MaxRetry = -1] and
    a transport that fails every time the loop returns after one attempt,
    reporting the terminal failure; it does not go on for ever. *)
Lemma C1_negative_maxRetry_no_indefinite_retry :
  send_loop Sample.unreachable 1 (-1) (Sample.request Sample.a) 0 world0
    = Some (mkWorld [] [Sample.request Sample.a] [ErrSendFailed (-1)])
  /\ ~ (forall fuel : nat,
          send_loop Sample.unreachable fuel (-1) (Sample.request Sample.a) 0 world0 = None).
Proof.
  split.
  - reflexivity.
  - intros H. specialize (H 1%nat). discriminate H.
Qed.

(** C6, as the code has it. When every delivery attempt fails, [send] makes
    exactly [max 1 MaxRetry] attempts, all with the same request, then
    reports the terminal failure and drops the batch: [MaxRetry] attempts
    when [MaxRetry >= 1] (5 attempts and no 6th for [MaxRetry = 5]), one
    attempt when [MaxRetry <= 0]. *)
Theorem C6_all_attempts_fail
  (P : Platform) (c : SenderConfig) (batch : list Line) (w : World) (req : Request) :
  is_int (cfg_MaxRetry c) ->
  prepare P c batch = Some (Ok req) ->
  (forall n, failed (http_Do P n req) = true) ->
  requests (send P c batch w)
    = requests w ++ repeat req (Z.to_nat (Z.max 1 (cfg_MaxRetry c))) /\
  reported (send P c batch w) = reported w ++ [ErrSendFailed (cfg_MaxRetry c)] /\
  (cfg_MaxRetry c = 5 ->
   requests (send P c batch w) = requests w ++ [req; req; req; req; req]).
Proof.
  intros HM Hprep Hfail.
  destruct (send_trace P c batch w req HM Hprep) as (k & Hk & _ & Hlast).
  destruct Hlast as [[Ha _]|[_ [Hb Hc]]].
  - rewrite Hfail in Ha. discriminate.
  - rewrite Hc. subst k. unfold attempts_bound. cbn [requests reported report wire_n hand].
    split; [reflexivity|]. split; [reflexivity|].
    intros ->. reflexivity.
Qed.

Lemma C6_all_attempts_fail_witness :
  requests (send Sample.refusing (Sample.config 5) [Sample.a] world0)
    = repeat (Sample.request (frame [Sample.a])) 5 /\
  reported (send Sample.refusing (Sample.config 5) [Sample.a] world0)
    = [ErrSendFailed 5].
Proof.
  destruct (C6_all_attempts_fail Sample.refusing (Sample.config 5) [Sample.a] world0
              (Sample.request (frame [Sample.a]))) as (H1 & H2 & _).
  - int_range.
  - reflexivity.
  - intros n. reflexivity.
  - split; [exact H1|exact H2].
Defined.

(** C6, as stated, fails for [MaxRetry = 0]: one attempt is made, not zero. *)
Lemma C6_maxRetry_zero_one_attempt :
  cfg_MaxRetry (Sample.config 0) = 0 /\
  requests (send Sample.refusing (Sample.config 0) [Sample.a] world0)
    = [Sample.request (frame [Sample.a])] /\
  len (requests (send Sample.refusing (Sample.config 0) [Sample.a] world0))
    <> cfg_MaxRetry (Sample.config 0).
Proof.
  split; [reflexivity|]. split; [reflexivity|]. discriminate.
Qed.




(** ** The Accumulator *)

Lemma content_size_app (l1 l2 : list Line) :
  content_size (l1 ++ l2) = content_size l1 + content_size l2.
Proof.
  induction l1 as [|l l1 IH]; simpl; [reflexivity|]. rewrite IH. lia.
Qed.

Lemma content_size_nonneg (ls : list Line) : 0 <= content_size ls.
Proof.
  induction ls as [|l ls IH]; simpl; [lia|]. pose proof (len_nonneg l). lia.
Qed.

Lemma int_add_small (a b : Z) :
  0 <= a <= maxContentSize -> 0 <= b <= maxContentSize -> int_add a b = a + b.
Proof.
  intros Ha Hb. unfold int_add. apply wrap_id.
  unfold is_int, int_min, int_max, maxContentSize in *. lia.
Qed.

Lemma buffer0_ok : buffer_ok buffer0.
Proof.
  unfold buffer_ok, within_thresholds, buffer0, maxContentSize, maxLogCount, len.
  simpl. repeat split; try lia. constructor.
Qed.

Section AccumulatorFacts.

Variable P : Platform.
Variable Entry : Type.
Variable format : Entry -> Result Line.
Variable c : SenderConfig.
Hypothesis maxRetry_int : is_int (cfg_MaxRetry c).

(** Every call of [send] is one hand-off, of the batch it is given. *)
Lemma send_handed (b : list Line) (w : World) :
  handed (send P c b w) = handed w ++ [b].
Proof.
  destruct (prepare P c b) as [[req|e]|] eqn:Hprep.
  - destruct (send_trace P c b w req maxRetry_int Hprep) as (k & _ & _ & Hlast).
    destruct Hlast as [[_ Hs]|[_ [_ Hs]]]; rewrite Hs; reflexivity.
  - unfold send, send_fuel. rewrite Hprep. reflexivity.
  - unfold send, send_fuel. rewrite Hprep. reflexivity.
Qed.

(** The flush test of the consumer loop, on a line that is not too large
    and a buffer within the thresholds, is the test on the sum itself. *)
Lemma flush_test (b : Buffer) (formatted : Line) :
  buffer_ok b -> len formatted <= maxLogSize ->
  int_add (size b) (len formatted) = size b + len formatted.
Proof.
  intros (Hs & Hc & _ & _) Hl. pose proof (content_size_nonneg (batch b)).
  pose proof (len_nonneg formatted).
  apply int_add_small; unfold maxLogSize, maxContentSize in *; lia.
Qed.

Lemma consume_append (entry : Entry) (formatted : Line) (b : Buffer) (w : World) :
  buffer_ok b -> format entry = Ok formatted -> len formatted <= maxLogSize ->
  consume P Entry format c entry b w =
    if (size b + len formatted >=? maxContentSize) || (len (batch b) =? maxLogCount)
    then Next (mkBuffer [formatted] (len formatted)) (send P c (batch b) w)
    else Next (mkBuffer (batch b ++ [formatted]) (size b + len formatted)) w.
Proof.
  intros Hb Hf Hl. unfold consume. rewrite Hf.
  rewrite (flush_test b formatted Hb Hl).
  destruct ((size b + len formatted >=? maxContentSize) || (len (batch b) =? maxLogCount)).
  - destruct (Z.gtb_spec (len formatted) maxLogSize) as [Hgt|_]; [lia|].
    cbn [batch size buffer0 app]. f_equal. f_equal.
    pose proof (len_nonneg formatted).
    apply int_add_small; unfold maxLogSize, maxContentSize in *; lia.
  - destruct (Z.gtb_spec (len formatted) maxLogSize) as [Hgt|_]; [lia|].
    rewrite (flush_test b formatted Hb Hl). reflexivity.
Qed.

Lemma flushed_ok_send (b : Buffer) (w : World) :
  buffer_ok b -> flushed_ok w -> flushed_ok (send P c (batch b) w).
Proof.
  intros (_ & Hb) Hw. unfold flushed_ok. rewrite send_handed.
  apply Forall_app. split; [exact Hw|]. constructor; [exact Hb|constructor].
Qed.

Lemma consume_ok (entry : Entry) (b : Buffer) (w : World) :
  buffer_ok b -> flushed_ok w ->
  match consume P Entry format c entry b w with
  | Next b' w' | Return b' w' => buffer_ok b' /\ flushed_ok w'
  end.
Proof.
  intros Hb Hw.
  destruct (format entry) as [formatted|e] eqn:Hf.
  - destruct (Z.gtb_spec (len formatted) maxLogSize) as [Hgt|Hle].
    + unfold consume. rewrite Hf.
      destruct ((int_add (size b) (len formatted) >=? maxContentSize)
                || (len (batch b) =? maxLogCount));
        destruct (Z.gtb_spec (len formatted) maxLogSize) as [_|Hc]; try lia.
      * split; [exact buffer0_ok|]. apply (flushed_ok_send b w Hb Hw).
      * split; assumption.
    + rewrite (consume_append entry formatted b w Hb Hf Hle).
      destruct ((size b + len formatted >=? maxContentSize)
                || (len (batch b) =? maxLogCount)) eqn:Hflush.
      * split; [|apply (flushed_ok_send b w Hb Hw)].
        unfold buffer_ok, within_thresholds. cbn [batch size].
        change (content_size [formatted]) with (len formatted + 0).
        change (len [formatted]) with 1.
        pose proof (len_nonneg formatted).
        repeat split; try (repeat constructor; exact Hle);
          unfold maxLogSize, maxContentSize, maxLogCount in *; lia.
      * split; [|exact Hw].
        apply orb_false_iff in Hflush. destruct Hflush as [H1 H2].
        destruct Hb as (Hs & Hc & Hn & Hlines).
        unfold buffer_ok, within_thresholds. cbn [batch size].
        rewrite content_size_app, len_app.
        change (content_size [formatted]) with (len formatted + 0).
        change (len [formatted]) with 1.
        repeat split; try lia.
        apply Forall_app. split; [exact Hlines|]. repeat constructor. exact Hle.
  - unfold consume. rewrite Hf. split; assumption.
Qed.

Lemma step_ok (ev : Event Entry) (a a' : Acc) (w w' : World) :
  buffer_ok (buf a) -> flushed_ok w ->
  step P Entry format c ev a w = Some (a', w') ->
  buffer_ok (buf a') /\ flushed_ok w'.
Proof.
  intros Hb Hw Hstep. destruct ev as [entry|]; cbn [step] in Hstep.
  - unfold on_entry in Hstep. destruct (consuming a); [|discriminate].
    pose proof (consume_ok entry (buf a) w Hb Hw) as Hc.
    destruct (consume P Entry format c entry (buf a) w) as [b1 w1|b1 w1];
      injection Hstep as <- <-; exact Hc.
  - unfold on_tick, tick in Hstep. injection Hstep as <- <-.
    split; [exact buffer0_ok|]. apply (flushed_ok_send (buf a) w Hb Hw).
Qed.

Lemma run_ok (evs : list (Event Entry)) :
  forall (a a' : Acc) (w w' : World),
  buffer_ok (buf a) -> flushed_ok w ->
  run P Entry format c evs a w = Some (a', w') ->
  buffer_ok (buf a') /\ flushed_ok w'.
Proof.
  induction evs as [|ev evs IH]; intros a a' w w' Hb Hw Hrun; cbn [run] in Hrun.
  - injection Hrun as <- <-. split; assumption.
  - destruct (step P Entry format c ev a w) as [[a1 w1]|] eqn:Hstep; [|discriminate].
    destruct (step_ok ev a a1 w w1 Hb Hw Hstep) as [Hb1 Hw1].
    exact (IH a1 a' w1 w' Hb1 Hw1 Hrun).
Qed.

End AccumulatorFacts.

Section RunFacts.

Variable P : Platform.
Variable Entry : Type.
Variable format : Entry -> Result Line.
Variable c : SenderConfig.

Lemma run_app (evs1 evs2 : list (Event Entry)) :
  forall (a : Acc) (w : World),
  run P Entry format c (evs1 ++ evs2) a w =
    match run P Entry format c evs1 a w with
    | Some (a', w') => run P Entry format c evs2 a' w'
    | None => None
    end.
Proof.
  induction evs1 as [|ev evs1 IH]; intros a w; cbn [run app].
  - reflexivity.
  - destruct (step P Entry format c ev a w) as [[a1 w1]|]; [apply IH|reflexivity].
Qed.

(** Appends that stay under both thresholds only grow the buffer. *)
Lemma run_appends (entries : list Entry) :
  forall (lines : list Line) (a : Acc) (w : World),
  consuming a = true ->
  buffer_ok (buf a) ->
  map format entries = map Ok lines ->
  Forall (fun l => len l <= maxLogSize) lines ->
  size (buf a) + content_size lines < maxContentSize ->
  len (batch (buf a)) + len lines <= maxLogCount ->
  run P Entry format c (map Append entries) a w
    = Some (mkAcc (mkBuffer (batch (buf a) ++ lines)
                            (size (buf a) + content_size lines)) true, w).
Proof.
  induction entries as [|entry entries IH]; intros lines a w Ha Hb Hf Hl Hs Hn.
  - destruct lines; [|discriminate]. cbn [map run content_size fold_right].
    rewrite app_nil_r, Z.add_0_r. destruct a as [[bt sz] cs]. simpl in *. subst. reflexivity.
  - destruct lines as [|l lines]; [discriminate|].
    cbn [map] in Hf. injection Hf as Hfl Hf.
    inversion Hl as [|? ? Hl1 Hl2]; subst.
    change (content_size (l :: lines)) with (len l + content_size lines) in *.
    change (len (l :: lines)) with (len ([l] ++ lines)) in Hn.
    rewrite len_app in Hn. change (len [l]) with 1 in Hn.
    pose proof (content_size_nonneg lines) as Hcs.
    pose proof (len_nonneg lines) as Hln.
    pose proof (len_nonneg l) as Hll.
    cbn [map run step]. unfold on_entry. rewrite Ha.
    rewrite (consume_append P Entry format c entry l (buf a) w Hb Hfl Hl1).
    destruct (Z.geb_spec (size (buf a) + len l) maxContentSize) as [Hge|_]; [lia|].
    destruct (Z.eqb_spec (len (batch (buf a))) maxLogCount) as [He|_]; [lia|].
    cbn [orb].
    rewrite IH with (lines := lines); cbn [buf batch size consuming]; try assumption;
      try reflexivity; try lia.
    + rewrite <- app_assoc. cbn [app]. rewrite <- Z.add_assoc. reflexivity.
    + destruct Hb as (Hsz & Hc & Hcount & Hlines).
      unfold buffer_ok, within_thresholds. cbn [batch size].
      rewrite content_size_app, len_app.
      change (content_size [l]) with (len l + 0). change (len [l]) with 1.
      repeat split; try lia.
      apply Forall_app. split; [exact Hlines|]. repeat constructor. exact Hl1.
    + rewrite len_app. change (len [l]) with 1. lia.
Qed.

End RunFacts.

Lemma len_line_of (n : Z) : 0 <= n -> len (Sample.line_of n) = n.
Proof.
  intros Hn. unfold len, Sample.line_of. rewrite repeat_length. lia.
Qed.

Lemma content_size_repeat (l : Line) (n : nat) :
  content_size (repeat l n) = Z.of_nat n * len l.
Proof.
  induction n as [|n IH].
  - reflexivity.
  - change (content_size (repeat l (S n))) with (len l + content_size (repeat l n)).
    rewrite IH. lia.
Qed.

(** The brackets and commas are not part of [size]: nineteen lines of
    256 kB and one of a byte less are accepted into one batch, whose
    payload is longer than [maxContentSize]. *)
Lemma payload_over_content_size
  (P : Platform) (Entry : Type) (format : Entry -> Result Line) (c : SenderConfig)
  (entry entry' : Entry) (l l' : Line) :
  format entry = Ok l -> len l = 262144 ->
  format entry' = Ok l' -> len l' = 262143 ->
  let lines := repeat l 19 ++ [l'] in
  run P Entry format c (map Append (repeat entry 19 ++ [entry'])) acc0 world0
    = Some (mkAcc (mkBuffer lines 5242879) true, world0) /\
  within_thresholds lines /\
  len (frame lines) = 5242900 /\
  len (frame lines) > maxContentSize.
Proof.
  intros Hf Hl Hf' Hl' lines.
  assert (Hcs : content_size lines = 5242879).
  { unfold lines. rewrite content_size_app, content_size_repeat, Hl.
    change (content_size [l']) with (len l' + 0). rewrite Hl'. reflexivity. }
  assert (Hlen : len lines = 20).
  { unfold lines. rewrite len_app. unfold len at 1. rewrite repeat_length. reflexivity. }
  assert (Hall : Forall (fun x => len x <= maxLogSize) lines).
  { unfold lines. apply Forall_app. split.
    - apply Forall_forall. intros x Hx. apply repeat_spec in Hx. subst x.
      rewrite Hl. unfold maxLogSize. lia.
    - repeat constructor. rewrite Hl'. unfold maxLogSize. lia. }
  assert (Hframe : len (frame lines) = 5242900).
  { assert (E : lines = l :: (repeat l 18 ++ [l'])) by reflexivity.
    rewrite E, frame_length, <- E, Hcs, Hlen. reflexivity. }
  split; [|split; [|split]].
  - rewrite (run_appends P Entry format c (repeat entry 19 ++ [entry']) lines acc0 world0).
    + change (batch (buf acc0)) with (@nil Line). change (size (buf acc0)) with 0.
      rewrite Hcs. reflexivity.
    + reflexivity.
    + exact buffer0_ok.
    + unfold lines. rewrite !map_app, !map_repeat. cbn [map]. rewrite Hf, Hf'. reflexivity.
    + exact Hall.
    + change (size (buf acc0)) with 0. rewrite Hcs. unfold maxContentSize. lia.
    + change (batch (buf acc0)) with (@nil Line). rewrite Hlen.
      unfold len, maxLogCount. simpl. lia.
  - unfold within_thresholds. rewrite Hcs, Hlen. unfold maxContentSize, maxLogCount.
    repeat split; try lia. exact Hall.
  - exact Hframe.
  - rewrite Hframe. unfold maxContentSize. lia.
Qed.

(** The batch of [payload_over_content_size] on its way out: the next
    flush hands it to [send], which makes one request with its payload as
    the body when the transport accepts it. *)
Lemma over_size_batch_sent (l l' : Line) :
  len l = 262144 -> len l' = 262143 ->
  let lines := repeat l 19 ++ [l'] in
  run Sample.accepting Sample.entry Sample.format (Sample.config 5)
      (map Append (repeat (Some l) 19 ++ [Some l']) ++ [FlushNow]) acc0 world0
    = Some (acc0, mkWorld [lines] [Sample.request (frame lines)] []) /\
  within_thresholds lines /\
  len (frame lines) = 5242900 /\
  len (frame lines) > maxContentSize.
Proof.
  intros Hl Hl' lines.
  destruct (payload_over_content_size Sample.accepting Sample.entry Sample.format
              (Sample.config 5) (Some l) (Some l') l l' eq_refl Hl eq_refl Hl')
    as (Hrun & Hin & Hlen & Hover).
  fold lines in Hrun, Hin, Hlen, Hover.
  split; [|split; [exact Hin|split; [exact Hlen|exact Hover]]].
  unfold Sample.entry in *.
  rewrite run_app, Hrun. cbn [run step]. unfold on_tick, tick. cbn [buf batch consuming].
  assert (HM : is_int (cfg_MaxRetry (Sample.config 5))) by int_range.
  assert (Hprep : prepare Sample.accepting (Sample.config 5) lines
                  = Some (Ok (Sample.request (frame lines)))).
  { apply (prepare_ok Sample.accepting (Sample.config 5) lines
             "https://example.test/v1/input"
             (mkRequest "POST" "https://example.test/v1/input" [] (frame lines))).
    - discriminate.
    - discriminate.
    - reflexivity.
    - reflexivity. }
  destruct (send_trace Sample.accepting (Sample.config 5) lines world0
              (Sample.request (frame lines)) HM Hprep) as (k & Hk & Hpre & Hlast).
  assert (Hk1 : k = 1%nat).
  { destruct k as [|[|k]]; [lia|reflexivity|].
    specialize (Hpre 0%nat ltac:(lia)). discriminate Hpre. }
  subst k.
  destruct Hlast as [[_ Hs]|[Hf _]]; [|discriminate Hf].
  rewrite Hs. reflexivity.
Qed.

(** C5 at a failing input: nineteen lines of 262144 bytes and one of
    262143 bytes, then a flush. No append crosses a test of the consumer,
    since [size] counts the bytes of the lines only (5242879, under
    [maxContentSize] = 5242880), so the twenty lines leave as one batch;
    its payload, with the brackets and commas, is the body of the request
    and is 5242900 bytes long: the batch handed off is over the maximum
    content size of a request. *)
Theorem C5_flushed_batch_over_content_size :
  let l := Sample.line_of 262144 in
  let l' := Sample.line_of 262143 in
  let lines := repeat l 19 ++ [l'] in
  run Sample.accepting Sample.entry Sample.format (Sample.config 5)
      (map Append (repeat (Some l) 19 ++ [Some l']) ++ [FlushNow]) acc0 world0
    = Some (acc0, mkWorld [lines] [Sample.request (frame lines)] []) /\
  content_size lines = 5242879 /\
  len lines = 20 /\
  len (req_body (Sample.request (frame lines))) = 5242900 /\
  5242900 > maxContentSize.
Proof.
  intros l l' lines.
  assert (Hl : len l = 262144) by (apply len_line_of; lia).
  assert (Hl' : len l' = 262143) by (apply len_line_of; lia).
  destruct (over_size_batch_sent l l' Hl Hl') as (Hrun & _ & Hlen & _).
  fold lines in Hrun, Hlen.
  split; [exact Hrun|]. split; [|split; [|split]].
  - unfold lines. rewrite content_size_app, content_size_repeat, Hl.
    change (content_size [l']) with (len l' + 0). rewrite Hl'. reflexivity.
  - unfold lines. rewrite len_app. unfold len at 1. rewrite repeat_length. reflexivity.
  - exact Hlen.
  - unfold maxContentSize. lia.
Qed.

(** C7, as the code has it. For every sequence of appends whose entries can
    be encoded, with every encoded line at most [maxLogSize] long, with the
    sizes summing below [maxContentSize] and the count below [maxLogCount],
    nothing is handed to the Sender during the appends, the buffer then
    holds all the lines in call order, and the next flush hands off exactly
    one batch, made of these lines. *)
Theorem C7_single_batch
  (P : Platform) (Entry : Type) (format : Entry -> Result Line) (c : SenderConfig)
  (entries : list Entry) (lines : list Line) :
  is_int (cfg_MaxRetry c) ->
  map format entries = map Ok lines ->
  Forall (fun l => len l <= maxLogSize) lines ->
  content_size lines < maxContentSize ->
  len lines < maxLogCount ->
  run P Entry format c (map Append entries) acc0 world0
    = Some (mkAcc (mkBuffer lines (content_size lines)) true, world0) /\
  run P Entry format c (map Append entries ++ [FlushNow]) acc0 world0
    = Some (acc0, send P c lines world0) /\
  handed (send P c lines world0) = [lines].
Proof.
  intros HM Hf Hl Hs Hn.
  assert (Hrun : run P Entry format c (map Append entries) acc0 world0
                 = Some (mkAcc (mkBuffer lines (content_size lines)) true, world0)).
  { rewrite (run_appends P Entry format c entries lines acc0 world0);
      try assumption; try reflexivity.
    - exact buffer0_ok.
    - change (batch (buf acc0)) with (@nil Line). change (len (@nil Line)) with 0. lia. }
  split; [exact Hrun|]. split.
  - rewrite run_app, Hrun. reflexivity.
  - rewrite send_handed by exact HM. reflexivity.
Qed.

Lemma C7_single_batch_witness :
  run Sample.accepting Sample.entry Sample.format (Sample.config 5)
      (map Append [Some Sample.a; Some Sample.b] ++ [FlushNow]) acc0 world0
    = Some (acc0, mkWorld [[Sample.a; Sample.b]]
                          [Sample.request (frame [Sample.a; Sample.b])] []) /\
  frame [Sample.a; Sample.b] = ["["; "a"; ","; "b"; "]"]%byte.
Proof.
  split; [|reflexivity].
  apply (C7_single_batch Sample.accepting Sample.entry Sample.format (Sample.config 5)
           [Some Sample.a; Some Sample.b] [Sample.a; Sample.b]).
  - int_range.
  - reflexivity.
  - repeat constructor; unfold len, maxLogSize; simpl; lia.
  - unfold maxContentSize; simpl; lia.
  - unfold len, maxLogCount; simpl; lia.
Defined.

(** C7, as stated, fails for a line over [maxLogSize]: one append of a line
    of 262145 bytes is below [maxContentSize] and below [maxLogCount], yet
    the line is dropped, the consumer returns, and the next flush hands an
    empty batch to the Sender, which sends nothing. *)
Lemma C7_oversize_line_not_batched :
  let l := Sample.line_of 262145 in
  content_size [l] < maxContentSize /\
  len [l] < maxLogCount /\
  run Sample.accepting Sample.entry Sample.format (Sample.config 5)
      (map Append [Some l] ++ [FlushNow]) acc0 world0
    = Some (mkAcc buffer0 false,
            mkWorld [[]] [] [ErrTooLarge 262144 262145]).
Proof.
  vm_compute. repeat split; reflexivity.
Qed.

(** ** Errors in the consumer loop *)

(** C2 at a failing input: the entries [a], a line of 262145 bytes, [b].
    The error is reported and the line is dropped, but the consumer
    goroutine returns: [a] stays buffered until the next tick, and the
    append of [b] is never received (the caller of [Fire] blocks on
    [entryC]), so [b] reaches no batch. *)
Theorem C2_oversize_line_ends_consumer :
  let l := Sample.line_of 262145 in
  let run := run Sample.accepting Sample.entry Sample.format (Sample.config 5) in
  let stopped := mkAcc (mkBuffer [Sample.a] 1) false in
  let w := mkWorld [] [] [ErrTooLarge 262144 262145] in
  run [Append (Some Sample.a); Append (Some l)] acc0 world0 = Some (stopped, w) /\
  step Sample.accepting Sample.entry Sample.format (Sample.config 5)
       (Append (Some Sample.b)) stopped w = None /\
  run [Append (Some Sample.a); Append (Some l); Append (Some Sample.b); FlushNow]
      acc0 world0 = None /\
  run [Append (Some Sample.a); Append (Some l); FlushNow] acc0 world0
    = Some (mkAcc buffer0 false,
            mkWorld [[Sample.a]] [Sample.request (frame [Sample.a])]
                    [ErrTooLarge 262144 262145]).
Proof.
  vm_compute. repeat split; reflexivity.
Qed.

(** The size test comes before the test of the line: a line that is too
    large makes the consumer hand off the current batch when [size] plus
    its length reaches [maxContentSize], and is dropped afterwards. *)
Lemma oversize_line_flushes_first
  (P : Platform) (Entry : Type) (format : Entry -> Result Line) (c : SenderConfig)
  (entry : Entry) (l : Line) (b : Buffer) (w : World) :
  format entry = Ok l ->
  len l = 262145 ->
  size b = 4980736 ->
  consume P Entry format c entry b w
    = Return buffer0 (report (ErrTooLarge maxLogSize 262145) (send P c (batch b) w)).
Proof.
  intros Hf Hl Hs. unfold consume. rewrite Hf, Hl, Hs. reflexivity.
Qed.

(** C4 at a failing input: the entries [a], one that cannot be encoded,
    [b]. The error is reported and the entry is dropped without a second
    encoding, but the consumer goroutine returns: the append of [b] is
    never received, so processing does not continue. *)
Theorem C4_encoding_error_ends_consumer :
  let run := run Sample.accepting Sample.entry Sample.format (Sample.config 5) in
  let stopped := mkAcc (mkBuffer [Sample.a] 1) false in
  let w := mkWorld [] [] [ErrExternal "json: unsupported type"] in
  run [Append (Some Sample.a); Append None] acc0 world0 = Some (stopped, w) /\
  step Sample.accepting Sample.entry Sample.format (Sample.config 5)
       (Append (Some Sample.b)) stopped w = None /\
  run [Append (Some Sample.a); Append None; Append (Some Sample.b); FlushNow]
      acc0 world0 = None /\
  run [Append (Some Sample.a); Append None; FlushNow] acc0 world0
    = Some (mkAcc buffer0 false,
            mkWorld [[Sample.a]] [Sample.request (frame [Sample.a])]
                    [ErrExternal "json: unsupported type"]).
Proof.
  vm_compute. repeat split; reflexivity.
Qed.

(** Whatever the entry, once the consumer has returned no append is
    received any more. *)
Lemma stopped_consumer_receives_nothing
  (P : Platform) (Entry : Type) (format : Entry -> Result Line) (c : SenderConfig)
  (entry : Entry) (b : Buffer) (w : World) :
  step P Entry format c (Append entry) (mkAcc b false) w = None.
Proof. reflexivity. Qed.

(** An entry that cannot be encoded, and a line that is too large, each
    end the consumer loop. *)
Lemma consumer_returns_on_error
  (P : Platform) (Entry : Type) (format : Entry -> Result Line) (c : SenderConfig)
  (entry : Entry) (a a' : Acc) (w w' : World) :
  step P Entry format c (Append entry) a w = Some (a', w') ->
  match format entry with
  | Err _ => consuming a' = false
  | Ok formatted => consuming a' = negb (len formatted >? maxLogSize)
  end.
Proof.
  cbn [step]. unfold on_entry, consume. destruct (consuming a); [|discriminate].
  destruct (format entry) as [formatted|e].
  - destruct ((int_add (size (buf a)) (len formatted) >=? maxContentSize)
              || (len (batch (buf a)) =? maxLogCount));
      destruct (len formatted >? maxLogSize); intros H; injection H as <- <-; reflexivity.
  - intros H. injection H as <- <-. reflexivity.
Qed.

(** ** Shutdown *)

(** The top-level hook, once the goroutines of [batch] have started and no
    iteration is under way: while the ticker goroutine is in its loop (the
    wait group counting it, and the consumer if it is still in its loop),
    [Close] hands the buffered batch to [send] once and returns after it. *)
Lemma hook_close_final_flush
  (P : Platform) (Entry : Type) (h : Hook.DatadogHook Entry)
  (s : Hook.State) (w : World) :
  Hook.entryC_closed s = false ->
  Hook.ticking s = true ->
  Hook.wg s = (if consuming (Hook.acc s) then 2 else 1) ->
  exists s' : Hook.State,
    Hook.Close P Entry h s w
      = Returns tt s' (Hook.send P Entry h (batch (buf (Hook.acc s))) w) /\
    Hook.ticking s' = false /\ consuming (Hook.acc s') = false /\ Hook.wg s' = 0.
Proof.
  intros Hc Ht Hwg. unfold Hook.Close. rewrite Hc.
  destruct s as [[b cons] bt tk n cl st]. cbn in *. subst tk n.
  destruct cons; cbn; eexists; (split; [reflexivity|]); repeat split.
Qed.

(** The hook under [datadog/]: no [Fire] and no tick changes the wait
    group or closes [entryC]. *)
Lemma env_play_keeps_wg
  (P : Platform) (Entry : Type) (h : EnvHook.DatadogHook Entry)
  (acts : list (EnvHook.Action Entry)) :
  forall (s s' : EnvHook.State) (w w' : World),
  EnvHook.play P Entry h acts s w = Some (s', w') ->
  EnvHook.wg s' = EnvHook.wg s /\ EnvHook.entryC_closed s' = EnvHook.entryC_closed s.
Proof.
  induction acts as [|[entry|] acts IH]; intros s s' w w' Hplay; cbn [EnvHook.play] in Hplay.
  - injection Hplay as <- <-. split; reflexivity.
  - unfold EnvHook.Fire in Hplay.
    destruct (EnvHook.entryC_closed s) eqn:Hc; [discriminate|].
    destruct (on_entry P Entry (EnvHook.formatter Entry h) (EnvHook.config P Entry h)
                entry (EnvHook.acc s) w) as [[a1 w1]|]; [|discriminate].
    destruct (IH _ _ _ _ Hplay) as [H1 H2]. cbn in H1, H2. rewrite H1, H2, Hc.
    split; reflexivity.
  - unfold EnvHook.Tick in Hplay.
    destruct (EnvHook.ticker_stopped s).
    + exact (IH _ _ _ _ Hplay).
    + destruct (on_tick P (EnvHook.config P Entry h) (EnvHook.acc s) w) as [a1 w1].
      destruct (IH _ _ _ _ Hplay) as [H1 H2]. cbn in H1, H2. split; assumption.
Qed.

(** The hook under [datadog/], after [New], once the goroutines of [batch]
    have started, and any [Fire]s and ticks: [Close] blocks, with the
    world and the buffer as they were. *)
Lemma env_close_blocks
  (P : Platform) (Entry : Type) (JSONFormatter : Entry -> Result Line)
  (apiKey : option string) (minLevel : Z)
  (h : EnvHook.DatadogHook Entry) (s0 s : EnvHook.State)
  (acts : list (EnvHook.Action Entry)) (w : World) :
  EnvHook.New P Entry JSONFormatter apiKey minLevel = Ok (h, s0) ->
  EnvHook.play P Entry h acts s0 world0 = Some (s, w) ->
  exists s' : EnvHook.State,
    EnvHook.Close Entry h s w = Blocks s' w /\
    buf (EnvHook.acc s') = buf (EnvHook.acc s).
Proof.
  intros Hnew Hplay.
  destruct (env_play_keeps_wg P Entry h acts s0 s world0 w Hplay) as [Hwg Hc].
  assert (H0 : EnvHook.wg s0 = 2 /\ EnvHook.entryC_closed s0 = false).
  { unfold EnvHook.New in Hnew.
    destruct (String.eqb _ ""); [discriminate|].
    injection Hnew as _ <-. split; reflexivity. }
  destruct H0 as [H2 Hc0]. rewrite H2 in Hwg. rewrite Hc0 in Hc.
  unfold EnvHook.Close. rewrite Hc.
  destruct (consuming (EnvHook.acc s)); cbn; rewrite Hwg; cbn;
    eexists; split; reflexivity.
Qed.

(** C3 on the hook under [datadog/]: [Close] never calls [send], so it
    leaves the world as it found it whatever is buffered; and after [New],
    one [Fire] and [Close], the entry is still in the buffer, no request
    was made, and [Close] is blocked in [h.wg.Wait()], the ticker goroutine
    never calling [h.wg.Done()]. *)
Theorem C3_env_close_no_final_flush :
  (forall (Entry : Type) (h : EnvHook.DatadogHook Entry)
          (s : EnvHook.State) (w : World),
     world_of (EnvHook.Close Entry h s w) = w) /\
  match EnvHook.New Sample.accepting Sample.entry Sample.format (Some "apikey"%string) 4 with
  | Ok (h, s0) =>
      match EnvHook.Fire Sample.accepting Sample.entry h (Some Sample.a) s0 world0 with
      | Returns None s1 w1 =>
          EnvHook.Close Sample.entry h s1 w1
            = Blocks (EnvHook.mkState (mkAcc (mkBuffer [Sample.a] 1) false) 1 true true)
                     world0
      | _ => False
      end
  | Err _ => False
  end.
Proof.
  split.
  - intros Entry h s w. unfold EnvHook.Close.
    destruct (EnvHook.entryC_closed s); [reflexivity|].
    match goal with |- world_of (if ?b then _ else _) = _ => destruct b end; reflexivity.
  - vm_compute. reflexivity.
Qed.

(** ** Batching disabled *)

(** C8, as the code has it. With [ClientBatchingEnabled] set to false,
    [New] starts no goroutine of [batch] (nothing listens to the ticker),
    and [Fire] works on the caller's goroutine: an entry that cannot be
    encoded makes [Fire] return the error with nothing sent; any other
    entry is handed to [send] as a batch of that one line before [Fire]
    returns, and when the request can be built every request of this
    delivery, at least one and at most five, carries the payload made of
    the line between brackets. *)
Theorem C8_unbatched_fire
  (P : Platform) (Entry : Type) (JSONFormatter : Entry -> Result Line)
  (options : Hook.Options) (h : Hook.DatadogHook Entry) (s : Hook.State) :
  Hook.opt_ClientBatchingEnabled options = Some false ->
  Hook.New Entry JSONFormatter (Some options) = Ok (h, s) ->
  (Hook.batching s = false /\ Hook.ticking s = false /\
   consuming (Hook.acc s) = false /\ Hook.wg s = 0) /\
  forall (entry : Entry) (w : World),
    match Hook.Formatter Entry h entry with
    | Err e => Hook.Fire P Entry h entry s w = Returns (Some e) s w
    | Ok formatted =>
        Hook.Fire P Entry h entry s w
          = Returns None s (Hook.send P Entry h [formatted] w) /\
        handed (Hook.send P Entry h [formatted] w) = handed w ++ [[formatted]] /\
        forall (url : string) (r : Request),
          Hook.buildUrl P Entry h = Ok url ->
          http_NewRequest P "POST" url (["["%byte] ++ formatted ++ ["]"%byte]) = Ok r ->
          exists k : nat,
            (1 <= k <= 5)%nat /\
            requests (Hook.send P Entry h [formatted] w)
              = requests w ++
                repeat (set_header [(apiKeyHeader, Hook.ApiKey Entry h);
                                    ("Content-Type"%string, "application/json"%string)] r) k
    end.
Proof.
  intros Hopt Hnew. unfold Hook.New in Hnew. cbn [Hook.or_default] in Hnew.
  rewrite Hopt in Hnew. cbn [Hook.or_default] in Hnew.
  destruct (Hook.opt_ApiKey options) as [apiKey|]; [|discriminate].
  destruct (String.eqb_spec apiKey "") as [|Hkey]; [discriminate|].
  cbn [Hook.ClientBatchingEnabled] in Hnew. injection Hnew as <- <-.
  split; [repeat split|].
  intros entry w. cbn [Hook.Formatter].
  unfold Hook.Fire. cbn [Hook.ClientBatchingEnabled Hook.Formatter].
  destruct (JSONFormatter entry) as [formatted|e]; [|reflexivity].
  split; [reflexivity|].
  match goal with
  | |- context [Hook.send P Entry ?hk _ _] => set (hook := hk)
  end.
  assert (HM : is_int (cfg_MaxRetry (Hook.config P Entry hook))).
  { int_range. }
  split.
  - unfold Hook.send. apply send_handed. exact HM.
  - intros url r Hurl Hreq.
    assert (Hprep : prepare P (Hook.config P Entry hook) [formatted]
                    = Some (Ok (set_header [(apiKeyHeader, apiKey);
                                  ("Content-Type"%string, "application/json"%string)] r))).
    { apply (prepare_ok P (Hook.config P Entry hook) [formatted] url r).
      - exact Hkey.
      - discriminate.
      - exact Hurl.
      - rewrite frame_single. exact Hreq. }
    destruct (send_trace P (Hook.config P Entry hook) [formatted] w _ HM Hprep)
      as (k & Hk & _ & Hlast).
    exists k. split.
    + unfold attempts_bound in Hk. cbn in Hk. lia.
    + unfold Hook.send.
      destruct Hlast as [[_ Hs]|[_ [_ Hs]]]; rewrite Hs; reflexivity.
Qed.

Lemma C8_unbatched_fire_witness :
  match Hook.New Sample.entry Sample.format (Some Sample.unbatched) with
  | Ok (h, s) =>
      Hook.ticking s = false /\
      Hook.Fire Sample.accepting Sample.entry h (Some Sample.a) s world0
        = Returns None s (Hook.send Sample.accepting Sample.entry h [Sample.a] world0) /\
      handed (Hook.send Sample.accepting Sample.entry h [Sample.a] world0) = [[Sample.a]] /\
      map req_body (requests (Hook.send Sample.accepting Sample.entry h [Sample.a] world0))
        = [["["; "a"; "]"]%byte]
  | Err _ => False
  end.
Proof.
  destruct (Hook.New Sample.entry Sample.format (Some Sample.unbatched))
    as [[h s]|e] eqn:Hnew; [|discriminate Hnew].
  destruct (C8_unbatched_fire Sample.accepting Sample.entry Sample.format
              Sample.unbatched h s eq_refl Hnew) as ((_ & Ht & _ & _) & Hfire).
  split; [exact Ht|].
  specialize (Hfire (Some Sample.a) world0).
  injection Hnew as <- <-.
  destruct Hfire as (Hf1 & Hf2 & _).
  split; [exact Hf1|]. split; [exact Hf2|]. reflexivity.
Defined.

(** C8, as stated, fails for an entry that cannot be encoded: with batching
    disabled, [Fire] returns the error and nothing is handed to [send]. *)
Lemma C8_unbatched_fire_encoding_error :
  match Hook.New Sample.entry Sample.format (Some Sample.unbatched) with
  | Ok (h, s) =>
      Hook.ClientBatchingEnabled Sample.entry h = false /\
      Hook.Fire Sample.accepting Sample.entry h None s world0
        = Returns (Some (ErrExternal "json: unsupported type")) s world0 /\
      handed world0 = [] /\ requests world0 = []
  | Err _ => False
  end.
Proof.
  vm_compute. repeat split; reflexivity.
Qed.

(** ** Construction from the environment *)

(** C10. When the value of [DATADOG_MAX_RETRIES] does not parse as an
    integer, [New] still succeeds for a non-empty API key, and the hook's
    [MaxRetry] is the default, 5. (An empty value is replaced by ["5"]
    before parsing, which gives 5 as well.) *)
Theorem C10_invalid_max_retries_default
  (P : Platform) (Entry : Type) (JSONFormatter : Entry -> Result Line)
  (apiKey : option string) (minLevel : Z) (e : error) :
  match apiKey with Some k => k | None => os_Getenv P "DATADOG_API_KEY" end <> ""%string ->
  strconv_ParseInt P (os_Getenv P "DATADOG_MAX_RETRIES") 0 32 = Err e ->
  strconv_ParseInt P "5" 0 32 = Ok 5 ->
  exists (h : EnvHook.DatadogHook Entry) (s : EnvHook.State),
    EnvHook.New P Entry JSONFormatter apiKey minLevel = Ok (h, s) /\
    EnvHook.MaxRetry Entry h = 5.
Proof.
  intros Hkey Hparse Hfive. unfold EnvHook.New.
  destruct (String.eqb_spec
              match apiKey with Some k => k | None => os_Getenv P "DATADOG_API_KEY" end "")
    as [E|_]; [contradiction|].
  eexists. eexists. split; [reflexivity|].
  cbn [EnvHook.MaxRetry]. unfold EnvHook.getenvOrDefault.
  destruct (String.eqb_spec (os_Getenv P "DATADOG_MAX_RETRIES") "") as [_|_]; cbn [negb].
  - rewrite Hfive. reflexivity.
  - rewrite Hparse. reflexivity.
Qed.

Lemma C10_invalid_max_retries_default_witness :
  os_Getenv Sample.platform_env "DATADOG_MAX_RETRIES" = "many"%string /\
  exists (h : EnvHook.DatadogHook Sample.entry) (s : EnvHook.State),
    EnvHook.New Sample.platform_env Sample.entry Sample.format (Some "apikey"%string) 4
      = Ok (h, s) /\
    EnvHook.MaxRetry Sample.entry h = 5.
Proof.
  split; [reflexivity|].
  apply (C10_invalid_max_retries_default Sample.platform_env Sample.entry Sample.format
           (Some "apikey"%string) 4 (ErrExternal "strconv.ParseInt: invalid syntax")).
  - discriminate.
  - reflexivity.
  - reflexivity.
Defined.

(** * Further properties *)

(** ** The payload *)

(** X1. The payload [send] builds with its index tests is the batch
    between brackets with a comma between consecutive lines, and nothing
    at all for the empty batch. *)
Theorem X1_payload_is_bracketed_join (batch : list Line) :
  frame batch =
    match batch with
    | [] => []
    | l :: ls => ["["%byte] ++ l ++ sep_lines ls ++ ["]"%byte]
    end.
Proof.
  destruct batch as [|l ls]; [reflexivity|apply frame_spec].
Qed.



(** ** The Sender *)

(** X3. With an empty API key or an empty batch [send] returns at once: no
    request is made and nothing is reported. *)
Theorem X3_send_nothing_to_send
  (P : Platform) (c : SenderConfig) (batch : list Line) (w : World) :
  cfg_ApiKey c = ""%string \/ batch = [] ->
  requests (send P c batch w) = requests w /\
  reported (send P c batch w) = reported w.
Proof.
  intros H. unfold send, send_fuel, prepare.
  destruct H as [H|H]; rewrite H.
  - cbn [String.eqb orb]. split; reflexivity.
  - rewrite orb_true_r. split; reflexivity.
Qed.

Lemma X3_send_nothing_to_send_witness :
  requests (send Sample.refusing (mkSenderConfig "" 5 (Ok "https://example.test"%string))
                 [Sample.a] world0) = [] /\
  reported (send Sample.refusing (mkSenderConfig "" 5 (Ok "https://example.test"%string))
                 [Sample.a] world0) = [].
Proof.
  apply (X3_send_nothing_to_send Sample.refusing
           (mkSenderConfig "" 5 (Ok "https://example.test"%string)) [Sample.a] world0).
  left. reflexivity.
Defined.

(** X4. When the URL cannot be parsed, the top-level hook's [send] of a
    non-empty batch reports that error once and makes no request, whatever
    [MaxRetry] is: the failure is not retried. *)
Theorem X4_url_error_not_retried
  (P : Platform) (Entry : Type) (h : Hook.DatadogHook Entry)
  (batch : list Line) (w : World) (e : error) :
  Hook.ApiKey Entry h <> ""%string ->
  batch <> [] ->
  url_Parse P (String.append (Hook.DatadogEndpoint Entry h) basePath) = Err e ->
  Hook.buildUrl P Entry h = Err e /\
  requests (Hook.send P Entry h batch w) = requests w /\
  reported (Hook.send P Entry h batch w) = reported w ++ [e].
Proof.
  intros Hkey Hb Hurl.
  assert (Hbuild : Hook.buildUrl P Entry h = Err e).
  { unfold Hook.buildUrl. rewrite Hurl. reflexivity. }
  split; [exact Hbuild|].
  unfold Hook.send, send, send_fuel, prepare.
  cbn [Hook.config cfg_ApiKey cfg_url cfg_MaxRetry].
  destruct (String.eqb_spec (Hook.ApiKey Entry h) "") as [E|_]; [contradiction|].
  destruct (Z.eqb_spec (len batch) 0) as [E|_].
  { apply len_nil_iff in E. contradiction. }
  cbn [orb]. destruct batch as [|l ls]; [contradiction|].
  destruct (Z.eqb_spec (len (frame (l :: ls))) 0) as [E|_].
  { apply len_nil_iff in E. rewrite frame_spec in E. discriminate. }
  rewrite Hbuild. split; reflexivity.
Qed.

Lemma X4_url_error_not_retried_witness :
  let h := Hook.mkHook Sample.entry "apikey" "unknown" "unknown" "golang" None true 4 5
                       Hook.DatadogHostUS Sample.format in
  requests (Hook.send no_url Sample.entry h [Sample.a] world0) = [] /\
  reported (Hook.send no_url Sample.entry h [Sample.a] world0)
    = [ErrExternal "parse: invalid URL"].
Proof.
  intros h.
  destruct (X4_url_error_not_retried no_url Sample.entry h [Sample.a] world0
              (ErrExternal "parse: invalid URL")) as (_ & H1 & H2).
  - discriminate.
  - discriminate.
  - reflexivity.
  - split; [exact H1|exact H2].
Defined.

(** X5. When the first [k] attempts of a delivery fail and the next one
    succeeds, with [k] below [max 1 MaxRetry], [send] makes exactly [k + 1]
    attempts, all with the same request, and reports nothing. *)
Theorem X5_success_after_failures
  (P : Platform) (c : SenderConfig) (batch : list Line) (w : World)
  (req : Request) (k : nat) :
  is_int (cfg_MaxRetry c) ->
  prepare P c batch = Some (Ok req) ->
  (k < attempts_bound (cfg_MaxRetry c))%nat ->
  (forall j, (j < k)%nat ->
     failed (http_Do P (List.length (requests w) + j) req) = true) ->
  failed (http_Do P (List.length (requests w) + k) req) = false ->
  requests (send P c batch w) = requests w ++ repeat req (S k) /\
  reported (send P c batch w) = reported w.
Proof.
  intros HM Hprep Hk Hbefore Hok.
  destruct (send_trace P c batch w req HM Hprep) as (n & Hn & Hpre & Hlast).
  assert (Hnk : n = S k).
  { destruct (Nat.lt_trichotomy k (n - 1)) as [Hlt|[Heq|Hgt]].
    - rewrite Hpre in Hok by exact Hlt. discriminate.
    - lia.
    - destruct Hlast as [[Ha _]|[_ [Hb _]]].
      + rewrite Hbefore in Ha by exact Hgt. discriminate.
      + lia. }
  subst n. replace (S k - 1)%nat with k in Hlast by lia.
  destruct Hlast as [[_ Hs]|[Ha _]]; [|congruence].
  rewrite Hs. split; reflexivity.
Qed.

Lemma X5_success_after_failures_witness :
  requests (send third_time (Sample.config 5) [Sample.a] world0)
    = repeat (Sample.request (frame [Sample.a])) 3 /\
  reported (send third_time (Sample.config 5) [Sample.a] world0) = [].
Proof.
  apply (X5_success_after_failures third_time (Sample.config 5) [Sample.a] world0
           (Sample.request (frame [Sample.a])) 2).
  - int_range.
  - reflexivity.
  - unfold attempts_bound. simpl. lia.
  - intros j Hj. destruct j as [|[|j]]; [reflexivity|reflexivity|lia].
  - reflexivity.
Defined.

(** X6. Whatever the transport answers, one call of [send] makes at most
    [max 1 MaxRetry] attempts, all with one and the same request, whose
    header is the API key under [DD-API-KEY] and the JSON content type,
    and it reports at most one error. *)
Theorem X6_send_bounded
  (P : Platform) (c : SenderConfig) (batch : list Line) (w : World) :
  is_int (cfg_MaxRetry c) ->
  exists (k : nat) (req : Request),
    Z.of_nat k <= Z.max 1 (cfg_MaxRetry c) /\
    requests (send P c batch w) = requests w ++ repeat req k /\
    req_header req = [(apiKeyHeader, cfg_ApiKey c);
                      ("Content-Type"%string, "application/json"%string)] /\
    (reported (send P c batch w) = reported w \/
     exists e, reported (send P c batch w) = reported w ++ [e]).
Proof.
  intros HM.
  set (hdr := [(apiKeyHeader, cfg_ApiKey c);
               ("Content-Type"%string, "application/json"%string)]).
  destruct (prepare P c batch) as [[req|e]|] eqn:Hprep.
  - destruct (send_trace P c batch w req HM Hprep) as (k & Hk & _ & Hlast).
    pose proof (attempts_bound_Z (cfg_MaxRetry c)) as HB.
    assert (Hhdr : req_header req = hdr).
    { unfold prepare in Hprep.
      destruct ((cfg_ApiKey c =? "")%string || (len batch =? 0)); [discriminate|].
      destruct (len (frame batch) =? 0); [discriminate|].
      destruct (cfg_url c) as [url|]; [|discriminate].
      destruct (http_NewRequest P "POST" url (frame batch)) as [r|]; [|discriminate].
      injection Hprep as <-. reflexivity. }
    exists k, req. split; [lia|].
    destruct Hlast as [[_ Hs]|[_ [_ Hs]]]; rewrite Hs.
    + split; [reflexivity|]. split; [exact Hhdr|]. left. reflexivity.
    + split; [reflexivity|]. split; [exact Hhdr|]. right. eexists. reflexivity.
  - exists 0%nat, (mkRequest "" "" hdr []).
    unfold send, send_fuel. rewrite Hprep. cbn [requests reported report hand repeat].
    rewrite app_nil_r. split; [lia|]. split; [reflexivity|]. split; [reflexivity|].
    right. eexists. reflexivity.
  - exists 0%nat, (mkRequest "" "" hdr []).
    unfold send, send_fuel. rewrite Hprep. cbn [requests reported hand repeat].
    rewrite app_nil_r. split; [lia|]. split; [reflexivity|]. split; [reflexivity|].
    left. reflexivity.
Qed.

Lemma X6_send_bounded_witness :
  exists (k : nat) (req : Request),
    Z.of_nat k <= Z.max 1 2 /\
    requests (send Sample.refusing (Sample.config 2) [Sample.a] world0)
      = requests world0 ++ repeat req k /\
    req_header req = [(apiKeyHeader, "apikey"%string);
                      ("Content-Type"%string, "application/json"%string)] /\
    (reported (send Sample.refusing (Sample.config 2) [Sample.a] world0) = reported world0 \/
     exists e, reported (send Sample.refusing (Sample.config 2) [Sample.a] world0)
               = reported world0 ++ [e]).
Proof.
  apply (X6_send_bounded Sample.refusing (Sample.config 2) [Sample.a] world0).
  int_range.
Defined.

(** ** Order and loss in the Accumulator *)

Section LinesFacts.

Variable P : Platform.
Variable Entry : Type.
Variable format : Entry -> Result Line.
Variable c : SenderConfig.
Hypothesis maxRetry_int : is_int (cfg_MaxRetry c).

Lemma lines_after_send (b : Buffer) (w : World) :
  List.concat (handed (send P c (batch b) w)) = List.concat (handed w) ++ batch b.
Proof.
  rewrite (send_handed P c maxRetry_int), concat_app. cbn [List.concat].
  rewrite app_nil_r. reflexivity.
Qed.

Lemma step_lines (ev : Event Entry) (a a' : Acc) (w w' : World) :
  step P Entry format c ev a w = Some (a', w') ->
  lines_so_far a' w' = lines_so_far a w ++ flat_map (accepted format) (entries_of [ev]).
Proof.
  unfold lines_so_far. destruct ev as [entry|]; cbn [step entries_of flat_map app].
  - unfold on_entry, consume, accepted. destruct (consuming a); [|discriminate].
    rewrite app_nil_r.
    destruct (format entry) as [l|e].
    + destruct ((int_add (size (buf a)) (len l) >=? maxContentSize)
                || (len (batch (buf a)) =? maxLogCount));
        destruct (len l >? maxLogSize); intros H; injection H as <- <-;
        cbn [buf batch handed report buffer0];
        rewrite ?lines_after_send, ?app_nil_r, <- ?app_assoc; reflexivity.
    + intros H. injection H as <- <-. cbn [handed report buf].
      rewrite app_nil_r. reflexivity.
  - unfold on_tick, tick. intros H. injection H as <- <-.
    cbn [buf batch buffer0]. rewrite lines_after_send, !app_nil_r. reflexivity.
Qed.

Lemma run_lines (evs : list (Event Entry)) :
  forall (a a' : Acc) (w w' : World),
  run P Entry format c evs a w = Some (a', w') ->
  lines_so_far a' w' = lines_so_far a w ++ flat_map (accepted format) (entries_of evs).
Proof.
  induction evs as [|ev evs IH]; intros a a' w w' Hrun; cbn [run] in Hrun.
  - injection Hrun as <- <-. cbn. rewrite app_nil_r. reflexivity.
  - destruct (step P Entry format c ev a w) as [[a1 w1]|] eqn:Hstep; [|discriminate].
    rewrite (IH _ _ _ _ Hrun), (step_lines _ _ _ _ _ Hstep), <- app_assoc.
    f_equal. unfold entries_of. cbn [flat_map]. rewrite app_nil_r.
    rewrite flat_map_app. reflexivity.
Qed.

End LinesFacts.

Lemma entries_of_appends {Entry : Type} (entries : list Entry) :
  entries_of (map Append entries) = entries.
Proof.
  induction entries as [|entry entries IH]; [reflexivity|].
  unfold entries_of in *. cbn [map flat_map app]. rewrite IH. reflexivity.
Qed.

(** X7. While no tick arrives, so that the consumer goroutine alone
    touches the batch: after any sequence of appends, the batches the
    consumer has handed to the Sender at the thresholds, one after the
    other, followed by the buffer, are exactly the encoded lines of the
    entries appended, in the order of the appends, without the entries
    that could not be encoded or were over [maxLogSize]. The threshold
    hand-offs lose, repeat and reorder nothing. *)
Theorem X7_appends_kept_in_order
  (P : Platform) (Entry : Type) (format : Entry -> Result Line) (c : SenderConfig)
  (entries : list Entry) (a : Acc) (w : World) :
  is_int (cfg_MaxRetry c) ->
  run P Entry format c (map Append entries) acc0 world0 = Some (a, w) ->
  List.concat (handed w) ++ batch (buf a) = flat_map (accepted format) entries.
Proof.
  intros HM Hrun.
  pose proof (run_lines P Entry format c HM (map Append entries) acc0 a world0 w Hrun)
    as Hlines.
  rewrite entries_of_appends in Hlines. exact Hlines.
Qed.

Lemma X7_appends_kept_in_order_witness :
  List.concat [] ++ [Sample.a; Sample.b] = [Sample.a; Sample.b].
Proof.
  apply (X7_appends_kept_in_order Sample.accepting Sample.entry Sample.format
           (Sample.config 5) [Some Sample.a; Some Sample.b]
           (mkAcc (mkBuffer [Sample.a; Sample.b] 2) true) world0).
  - int_range.
  - reflexivity.
Defined.

(** X8. A tick empties the buffer, and a tick on an empty buffer makes no
    request and reports nothing: of two ticks in a row only the first can
    send. *)
Theorem X8_idle_tick
  (P : Platform) (c : SenderConfig) (a : Acc) (w : World) :
  let '(a1, w1) := on_tick P c a w in
  let '(a2, w2) := on_tick P c a1 w1 in
  buf a1 = buffer0 /\ buf a2 = buffer0 /\
  requests w2 = requests w1 /\ reported w2 = reported w1.
Proof.
  unfold on_tick, tick. cbn [buf batch buffer0].
  split; [reflexivity|]. split; [reflexivity|].
  unfold send, send_fuel, prepare. cbn [len List.length Z.of_nat Z.eqb].
  rewrite orb_true_r. split; reflexivity.
Qed.

(** ** Levels *)

(** X9. For a minimum level up to trace (6), [Levels] returns exactly the
    levels from panic (0) to the minimum level, so debug and trace entries
    never reach a hook left at the default, info. For a minimum level
    beyond trace the slice expression panics, except at the largest
    [uint32], where the bound wraps to 0 and no level is returned. *)
Theorem X9_levels (minLevel : Z) :
  0 <= minLevel < 2 ^ 32 ->
  match Levels minLevel with
  | Some ls =>
      (minLevel <= 6 /\ forall l, In l ls <-> 0 <= l <= minLevel) \/
      (minLevel = 2 ^ 32 - 1 /\ ls = [])
  | None => 6 < minLevel < 2 ^ 32 - 1
  end.
Proof.
  intros Hm. unfold Levels.
  destruct (Z.eq_dec minLevel (2 ^ 32 - 1)) as [->|Hmax].
  - right. split; reflexivity.
  - rewrite Z.mod_small by lia.
    change (len AllLevels) with 7.
    destruct (Z.leb_spec (minLevel + 1) 7) as [Hle|Hgt]; [|lia].
    left. split; [lia|].
    assert (Hcases : minLevel = 0 \/ minLevel = 1 \/ minLevel = 2 \/ minLevel = 3 \/
                     minLevel = 4 \/ minLevel = 5 \/ minLevel = 6) by lia.
    intros l.
    destruct Hcases as [->|[->|[->|[->|[->|[->| ->]]]]]];
      vm_compute firstn; cbn [In]; split; intros H; lia.
Qed.

Lemma X9_levels_witness :
  Levels Hook.InfoLevel = Some [0; 1; 2; 3; 4] /\
  match Levels Hook.InfoLevel with
  | Some ls =>
      (Hook.InfoLevel <= 6 /\ forall l, In l ls <-> 0 <= l <= Hook.InfoLevel) \/
      (Hook.InfoLevel = 2 ^ 32 - 1 /\ ls = [])
  | None => 6 < Hook.InfoLevel < 2 ^ 32 - 1
  end.
Proof.
  split; [reflexivity|].
  apply (X9_levels Hook.InfoLevel). unfold Hook.InfoLevel. lia.
Defined.

(** ** Construction *)

(** X10. The top-level [New] fails exactly when no API key is given or the
    key is empty, also for nil options, and with the error that says so.
    Otherwise the hook holds the key, retries up to 5 times, has a
    non-empty endpoint (the US host when none or an empty one is given),
    batches unless told otherwise, and has started the two goroutines of
    [batch] exactly when it batches. *)
Theorem X10_new_needs_api_key
  (Entry : Type) (JSONFormatter : Entry -> Result Line) (options : option Hook.Options) :
  let key := match options with Some o => Hook.opt_ApiKey o | None => None end in
  match Hook.New Entry JSONFormatter options with
  | Ok (h, s) =>
      key = Some (Hook.ApiKey Entry h) /\
      Hook.ApiKey Entry h <> ""%string /\
      Hook.MaxRetry Entry h = 5 /\
      Hook.DatadogEndpoint Entry h <> ""%string /\
      (match options with
       | Some o =>
           (Hook.opt_DatadogEndpoint o = None \/ Hook.opt_DatadogEndpoint o = Some ""%string ->
            Hook.DatadogEndpoint Entry h = Hook.DatadogHostUS) /\
           (Hook.opt_ClientBatchingEnabled o = None -> Hook.ClientBatchingEnabled Entry h = true)
       | None => True
       end) /\
      Hook.wg s = (if Hook.ClientBatchingEnabled Entry h then 2 else 0) /\
      Hook.ticking s = Hook.ClientBatchingEnabled Entry h
  | Err e => e = ErrNoApiKey /\ (key = None \/ key = Some ""%string)
  end.
Proof.
  intros key. unfold Hook.New.
  destruct options as [o|]; cbn [Hook.or_default]; subst key.
  - destruct (Hook.opt_ApiKey o) as [k|]; [|split; [reflexivity|left; reflexivity]].
    destruct (String.eqb_spec k "") as [->|Hk];
      [split; [reflexivity|right; reflexivity]|].
    cbn [Hook.ClientBatchingEnabled].
    assert (Hend : match Hook.opt_DatadogEndpoint o with
                   | Some e => if (e =? "")%string then Hook.DatadogHostUS else e
                   | None => Hook.DatadogHostUS
                   end <> ""%string).
    { destruct (Hook.opt_DatadogEndpoint o) as [e|]; [|discriminate].
      destruct (String.eqb_spec e ""); [discriminate|assumption]. }
    destruct (Hook.opt_ClientBatchingEnabled o) as [[|]|] eqn:Hb;
      cbn [Hook.or_default Hook.ApiKey Hook.MaxRetry Hook.DatadogEndpoint
           Hook.ClientBatchingEnabled Hook.wg Hook.ticking];
      (split; [reflexivity|]); (split; [exact Hk|]); (split; [reflexivity|]);
      (split; [exact Hend|]); (split; [|split; reflexivity]);
      (split; [intros [->| ->]; reflexivity|]); intros; try reflexivity; discriminate.
  - cbn. split; [reflexivity|left; reflexivity].
Qed.

(** X11. The [New] of the hook under [datadog/] takes the key it is given
    and looks at [DATADOG_API_KEY] only when it is given none: it fails
    exactly when the key so chosen is empty, so an empty key that is given
    is not replaced by the one of the environment. The hook it returns
    holds the chosen key and the level it was given. *)
Theorem X11_env_new_key
  (P : Platform) (Entry : Type) (JSONFormatter : Entry -> Result Line)
  (apiKey : option string) (minLevel : Z) :
  let key := match apiKey with
             | Some k => k
             | None => os_Getenv P "DATADOG_API_KEY"
             end in
  match EnvHook.New P Entry JSONFormatter apiKey minLevel with
  | Ok (h, s) =>
      key <> ""%string /\
      EnvHook.ApiKey Entry h = key /\
      EnvHook.MinLevel Entry h = minLevel /\
      EnvHook.wg s = 2
  | Err e => e = ErrNoApiKey /\ key = ""%string
  end.
Proof.
  intros key. unfold EnvHook.New. fold key.
  destruct (String.eqb_spec key "") as [E|E].
  - split; [reflexivity|exact E].
  - repeat split. exact E.
Qed.

Section Region.

Import Ascii.

Lemma lower_ascii_e (a : Ascii.ascii) :
  EnvHook.lower_ascii a = "e"%char -> a = "e"%char \/ a = "E"%char.
Proof.
  destruct a as [[|] [|] [|] [|] [|] [|] [|] [|]]; vm_compute; intros H;
    first [left; reflexivity | right; reflexivity | discriminate H].
Qed.

Lemma lower_ascii_u (a : Ascii.ascii) :
  EnvHook.lower_ascii a = "u"%char -> a = "u"%char \/ a = "U"%char.
Proof.
  destruct a as [[|] [|] [|] [|] [|] [|] [|] [|]]; vm_compute; intros H;
    first [left; reflexivity | right; reflexivity | discriminate H].
Qed.

(** The region is read without regard to the case of its two letters. *)
Lemma ToLower_eu (region : string) :
  EnvHook.ToLower region = "eu"%string <->
  (region = "eu" \/ region = "eU" \/ region = "Eu" \/ region = "EU")%string.
Proof.
  split.
  - destruct region as [|c1 [|c2 [|c3 r]]]; cbn [EnvHook.ToLower]; intros H;
      try discriminate H.
    injection H as H1 H2.
    destruct (lower_ascii_e c1 H1) as [-> | ->];
      destruct (lower_ascii_u c2 H2) as [-> | ->]; auto.
  - intros [->|[->|[->| ->]]]; reflexivity.
Qed.

End Region.

(** X12. Every hook the [New] of [datadog/] returns has five non-empty
    tags, whatever the environment holds, and one of the two known
    endpoints: the EU host exactly when [DATADOG_REGION] is [eu] in any
    letter case, the US host otherwise. *)
Theorem X12_env_new_tags_and_region
  (P : Platform) (Entry : Type) (JSONFormatter : Entry -> Result Line)
  (apiKey : option string) (minLevel : Z)
  (h : EnvHook.DatadogHook Entry) (s : EnvHook.State) :
  EnvHook.New P Entry JSONFormatter apiKey minLevel = Ok (h, s) ->
  let t := EnvHook.Tags Entry h in
  let region := os_Getenv P "DATADOG_REGION" in
  (EnvHook.Service t <> "" /\ EnvHook.Environment t <> "" /\ EnvHook.Maintainer t <> "" /\
   EnvHook.Application t <> "" /\ EnvHook.Hostname t <> "")%string /\
  ((region = "eu" \/ region = "eU" \/ region = "Eu" \/ region = "EU")%string ->
   EnvHook.datadogEndpoint Entry h = EnvHook.datadogHostEU) /\
  (~ (region = "eu" \/ region = "eU" \/ region = "Eu" \/ region = "EU")%string ->
   EnvHook.datadogEndpoint Entry h = EnvHook.datadogHostUS).
Proof.
  intros Hnew t region. unfold EnvHook.New in Hnew.
  destruct (String.eqb _ ""); [discriminate|].
  injection Hnew as <- _. subst t. cbn [EnvHook.Tags EnvHook.datadogEndpoint
    EnvHook.Service EnvHook.Environment EnvHook.Maintainer EnvHook.Application
    EnvHook.Hostname].
  assert (Hdef : forall k d, d <> ""%string -> EnvHook.getenvOrDefault P k d <> ""%string).
  { intros k d Hd. unfold EnvHook.getenvOrDefault.
    destruct (String.eqb_spec (os_Getenv P k) ""); cbn [negb]; assumption. }
  split; [repeat split; apply Hdef; discriminate|].
  fold region.
  destruct (String.eqb_spec (EnvHook.ToLower region) "eu") as [E|E].
  - split; [reflexivity|]. intros Hn. apply ToLower_eu in E. contradiction.
  - split; [|reflexivity]. intros Hy. apply ToLower_eu in Hy. contradiction.
Qed.

Lemma X12_env_new_tags_and_region_witness :
  exists (h : EnvHook.DatadogHook Sample.entry) (s : EnvHook.State),
    EnvHook.New Sample.accepting Sample.entry Sample.format (Some "apikey"%string) 4
      = Ok (h, s) /\
    EnvHook.Service (EnvHook.Tags Sample.entry h) = "unknown"%string /\
    EnvHook.datadogEndpoint Sample.entry h = EnvHook.datadogHostUS.
Proof.
  destruct (EnvHook.New Sample.accepting Sample.entry Sample.format (Some "apikey"%string) 4)
    as [[h s]|e] eqn:Hnew; [|discriminate Hnew].
  exists h, s. split; [reflexivity|].
  destruct (X12_env_new_tags_and_region Sample.accepting Sample.entry Sample.format
              (Some "apikey"%string) 4 h s Hnew) as (_ & _ & Hus).
  injection Hnew as <- _. split; [reflexivity|].
  reflexivity.
Defined.

(** X13. For a level within [uint32], the [New] of [gfsLogger] never
    returns an error. With an empty API key it returns a logger with the
    writer hook only, under every level, and a warning is logged. With
    any other key it builds the Datadog hook with that key and level and
    adds it after the writer hook, under the levels [Levels] gives, with
    its [Close] registered for exit; but for a level beyond trace this
    [AddHook] panics in [Levels], and [New] with it. [DATADOG_API_KEY] is
    not looked at. *)
Theorem X13_logger_new
  (P : Platform) (Entry : Type) (JSONFormatter : Entry -> Result Line)
  (options : GfsLogger.Options) :
  0 <= GfsLogger.Level options < 2 ^ 32 ->
  match GfsLogger.New P Entry JSONFormatter options with
  | None =>
      GfsLogger.ApiKey options <> ""%string /\
      6 < GfsLogger.Level options < 2 ^ 32 - 1
  | Some (Err _) => False
  | Some (Ok (logger, st)) =>
      if String.eqb (GfsLogger.ApiKey options) ""
      then GfsLogger.hooks Entry logger = [(GfsLogger.WriterHook Entry, AllLevels)] /\
           GfsLogger.warnings Entry logger <> [] /\
           GfsLogger.exit_closes Entry logger = false /\
           st = None
      else exists (h : EnvHook.DatadogHook Entry) (s : EnvHook.State) (ls : list Z),
           GfsLogger.hooks Entry logger
             = [(GfsLogger.WriterHook Entry, AllLevels); (GfsLogger.DatadogHook Entry h, ls)] /\
           Levels (GfsLogger.Level options) = Some ls /\
           (GfsLogger.Level options <= 6 \/ GfsLogger.Level options = 2 ^ 32 - 1) /\
           EnvHook.ApiKey Entry h = GfsLogger.ApiKey options /\
           EnvHook.MinLevel Entry h = GfsLogger.Level options /\
           GfsLogger.warnings Entry logger = [] /\
           GfsLogger.exit_closes Entry logger = true /\
           st = Some s
  end.
Proof.
  intros Hlevel. unfold GfsLogger.New. cbn [GfsLogger.AddHook].
  destruct (String.eqb_spec (GfsLogger.ApiKey options) "") as [E|E].
  - cbn. repeat split. discriminate.
  - unfold EnvHook.New.
    destruct (String.eqb_spec (GfsLogger.ApiKey options) "") as [E'|_]; [contradiction|].
    cbn [EnvHook.MinLevel].
    assert (HL : match Levels (GfsLogger.Level options) with
                 | Some _ => GfsLogger.Level options <= 6 \/
                             GfsLogger.Level options = 2 ^ 32 - 1
                 | None => 6 < GfsLogger.Level options < 2 ^ 32 - 1
                 end).
    { unfold Levels. change (len AllLevels) with 7.
      destruct (Z.eq_dec (GfsLogger.Level options) (2 ^ 32 - 1)) as [->|Hmax].
      - right. reflexivity.
      - rewrite Z.mod_small by lia.
        destruct (Z.leb_spec (GfsLogger.Level options + 1) 7); [left|]; lia. }
    destruct (Levels (GfsLogger.Level options)) as [ls|] eqn:HLs; cbn [GfsLogger.AddHook].
    + destruct (String.eqb_spec (GfsLogger.ApiKey options) "") as [E'|_]; [contradiction|].
      eexists. eexists. exists ls. cbn. repeat split. exact HL.
    + split; [exact E|exact HL].
Qed.

Lemma X13_logger_new_witness :
  match GfsLogger.New Sample.accepting Sample.entry Sample.format
          (GfsLogger.mkOptions "apikey" 4) with
  | Some (Ok (logger, _)) =>
      map snd (GfsLogger.hooks Sample.entry logger) = [AllLevels; [0; 1; 2; 3; 4]]
  | _ => False
  end /\
  GfsLogger.New Sample.accepting Sample.entry Sample.format
    (GfsLogger.mkOptions "apikey" 7) = None.
Proof.
  split; [reflexivity|].
  pose proof (X13_logger_new Sample.accepting Sample.entry Sample.format
                (GfsLogger.mkOptions "apikey" 7)) as H.
  cbn [GfsLogger.Level] in H. specialize (H ltac:(lia)).
  destruct (GfsLogger.New Sample.accepting Sample.entry Sample.format
              (GfsLogger.mkOptions "apikey" 7)) as [[[logger st]|e]|].
  - exfalso. cbn in H. destruct H as (h & s & ls & _ & _ & [Hle|Heq] & _); lia.
  - contradiction.
  - reflexivity.
Defined.

(** ** The life of the top-level hook *)

(** X14. Once [Close] has returned, the top-level hook is spent: a second
    [Close] panics on the closed channel, with batching enabled [Fire]
    panics too, and a tick does nothing; none of them sends anything. *)
Theorem X14_after_close
  (P : Platform) (Entry : Type) (h : Hook.DatadogHook Entry)
  (s s' : Hook.State) (w w' w2 : World) (entry : Entry) :
  Hook.Close P Entry h s w = Returns tt s' w' ->
  Hook.Close P Entry h s' w2 = Panics s' w2 /\
  (Hook.ClientBatchingEnabled Entry h = true ->
   Hook.Fire P Entry h entry s' w2 = Panics s' w2) /\
  Hook.Tick P Entry h s' w2 = (s', w2).
Proof.
  unfold Hook.Close. destruct (Hook.entryC_closed s); [discriminate|].
  match goal with
  | |- (if ?t then _ else _) = _ -> _ => destruct t
  end.
  - match goal with
    | |- (if ?z then _ else _) = _ -> _ => destruct z
    end; intros H; [|discriminate H].
    injection H as <- _.
    split; [reflexivity|]. split; [|reflexivity].
    intros Hb. unfold Hook.Fire. rewrite Hb. reflexivity.
  - match goal with
    | |- (if ?z then _ else _) = _ -> _ => destruct z
    end; intros H; discriminate H.
Qed.

Lemma X14_after_close_witness :
  let h := Hook.mkHook Sample.entry "apikey" "unknown" "unknown" "golang" None true 4 5
                       Hook.DatadogHostUS Sample.format in
  let s' := Hook.mkState (mkAcc buffer0 false) true false 0 true true in
  Hook.Close Sample.accepting Sample.entry h s' world0 = Panics s' world0 /\
  Hook.Fire Sample.accepting Sample.entry h (Some Sample.a) s' world0 = Panics s' world0.
Proof.
  intros h s'.
  destruct (X14_after_close Sample.accepting Sample.entry h
              (Hook.mkState acc0 true true 2 false false) s' world0
              (mkWorld [[]] [] []) world0 (Some Sample.a)) as (H1 & H2 & _).
  - reflexivity.
  - split; [exact H1|]. apply H2. reflexivity.
Defined.

(** What [New] leaves running. *)
Lemma hook_new_shape
  (Entry : Type) (JSONFormatter : Entry -> Result Line)
  (options : Hook.Options) (h : Hook.DatadogHook Entry) (s0 : Hook.State) :
  Hook.New Entry JSONFormatter (Some options) = Ok (h, s0) ->
  Hook.MaxRetry Entry h = 5 /\
  s0 = (if Hook.ClientBatchingEnabled Entry h
        then Hook.mkState acc0 true true 2 false false
        else Hook.mkState (mkAcc buffer0 false) false false 0 false false).
Proof.
  unfold Hook.New. cbn [Hook.or_default].
  destruct (Hook.opt_ApiKey options) as [k|]; [|discriminate].
  destruct (String.eqb k ""); [discriminate|].
  cbn [Hook.ClientBatchingEnabled].
  match goal with
  | |- (if ?b then _ else _) = _ -> _ => destruct b eqn:Hopt
  end;
    intros H; injection H as <- <-; cbn [Hook.MaxRetry Hook.ClientBatchingEnabled];
    try rewrite Hopt; split; reflexivity.
Qed.

(** X16. The [Source] of the top-level hook is never used: the URL is built
    with the source [golang] whatever the option says, so two hooks that
    differ in their [Source] only build the same URL and send the same
    requests. *)
Theorem X16_source_is_ignored
  (P : Platform) (Entry : Type) (h : Hook.DatadogHook Entry) (source : string)
  (batch : list Line) (entry : Entry) (s : Hook.State) (w : World) :
  Hook.buildUrl P Entry (with_source h source) = Hook.buildUrl P Entry h /\
  Hook.send P Entry (with_source h source) batch w = Hook.send P Entry h batch w /\
  Hook.Fire P Entry (with_source h source) entry s w = Hook.Fire P Entry h entry s w.
Proof.
  assert (Hurl : Hook.buildUrl P Entry (with_source h source) = Hook.buildUrl P Entry h)
    by reflexivity.
  assert (Hcfg : Hook.config P Entry (with_source h source) = Hook.config P Entry h).
  { unfold Hook.config. rewrite Hurl. reflexivity. }
  split; [exact Hurl|]. split.
  - unfold Hook.send. rewrite Hcfg. reflexivity.
  - unfold Hook.Fire, Hook.send. rewrite Hcfg. reflexivity.
Qed.

(** X17. The top-level hook with batching disabled, from [New] through any
    [Fire]s and ticks: no [Fire] blocks, the ticks do nothing, and the
    batches handed to the Sender are the encoded lines of the entries
    fired, one line a batch, in the order of the [Fire]s, whatever their
    length; only the entries that could not be encoded are missing. *)
Theorem X17_unbatched_life
  (P : Platform) (Entry : Type) (JSONFormatter : Entry -> Result Line)
  (options : Hook.Options) (h : Hook.DatadogHook Entry) (s0 : Hook.State)
  (acts : list (HookRun.Action Entry)) :
  Hook.New Entry JSONFormatter (Some options) = Ok (h, s0) ->
  Hook.ClientBatchingEnabled Entry h = false ->
  exists w : World,
    HookRun.play P Entry h acts s0 world0 = Some (s0, w) /\
    handed w
      = map (fun l => [l])
            (flat_map (encoded (Hook.Formatter Entry h)) (HookRun.fired Entry acts)).
Proof.
  intros Hnew Hb.
  destruct (hook_new_shape Entry JSONFormatter options h s0 Hnew) as [H5 Hs0].
  rewrite Hb in Hs0.
  assert (HM : is_int (cfg_MaxRetry (Hook.config P Entry h))).
  { cbn [Hook.config cfg_MaxRetry]. rewrite H5. int_range. }
  assert (Hticking : Hook.ticking s0 = false) by (subst s0; reflexivity).
  clear Hnew.
  cut (forall w0, exists w,
         HookRun.play P Entry h acts s0 w0 = Some (s0, w) /\
         handed w = handed w0 ++
           map (fun l => [l])
               (flat_map (encoded (Hook.Formatter Entry h)) (HookRun.fired Entry acts))).
  { intros H. exact (H world0). }
  induction acts as [|[entry|] acts IH]; intros w0; cbn [HookRun.play].
  - exists w0. split; [reflexivity|]. cbn. rewrite app_nil_r. reflexivity.
  - unfold Hook.Fire. rewrite Hb.
    unfold HookRun.fired. cbn [flat_map app]. fold (HookRun.fired Entry acts).
    unfold encoded at 1.
    destruct (Hook.Formatter Entry h entry) as [l|e].
    + destruct (IH (Hook.send P Entry h [l] w0)) as (w & Hplay & Hw).
      exists w. split; [exact Hplay|].
      rewrite Hw. unfold Hook.send. rewrite (send_handed P _ HM).
      cbn [app map flat_map]. rewrite <- app_assoc. reflexivity.
    + destruct (IH w0) as (w & Hplay & Hw).
      exists w. split; [exact Hplay|]. rewrite Hw. reflexivity.
  - unfold Hook.Tick. rewrite Hticking. cbn [andb].
    destruct (IH w0) as (w & Hplay & Hw).
    exists w. split; [exact Hplay|]. rewrite Hw. reflexivity.
Qed.

Lemma X17_unbatched_life_witness :
  match Hook.New Sample.entry Sample.format (Some Sample.unbatched) with
  | Ok (h, s0) =>
      exists w : World,
        HookRun.play Sample.accepting Sample.entry h
          [HookRun.DoFire Sample.entry (Some Sample.a); HookRun.DoTick Sample.entry;
           HookRun.DoFire Sample.entry None; HookRun.DoFire Sample.entry (Some Sample.b)]
          s0 world0 = Some (s0, w) /\
        handed w = [[Sample.a]; [Sample.b]]
  | Err _ => False
  end.
Proof.
  destruct (Hook.New Sample.entry Sample.format (Some Sample.unbatched))
    as [[h s0]|e] eqn:Hnew; [|discriminate Hnew].
  destruct (X17_unbatched_life Sample.accepting Sample.entry Sample.format
              Sample.unbatched h s0
              [HookRun.DoFire Sample.entry (Some Sample.a); HookRun.DoTick Sample.entry;
               HookRun.DoFire Sample.entry None; HookRun.DoFire Sample.entry (Some Sample.b)]
              Hnew) as (w & Hplay & Hw).
  - injection Hnew as <- _. reflexivity.
  - exists w. split; [exact Hplay|]. rewrite Hw.
    injection Hnew as <- _. reflexivity.
Defined.

(** ** The flush rule of the consumer *)

(** X18. While no tick arrives, so that the consumer goroutine alone
    touches the batch: after any sequence of appends every batch the
    consumer has handed to the Sender is within both thresholds as [size]
    counts (the bytes of the lines), [size] is the sum of the lengths of
    the buffered lines, and on the append of a line that is not too large
    the current batch is handed off exactly when [size] plus the length of
    the line is at least [maxContentSize] or the batch already holds
    [maxLogCount] lines: the line then starts the new batch, and otherwise
    it joins the current batch and nothing is handed off. *)
Theorem X18_flush_rule
  (P : Platform) (Entry : Type) (format : Entry -> Result Line) (c : SenderConfig)
  (entries : list Entry) (a : Acc) (w : World) :
  is_int (cfg_MaxRetry c) ->
  run P Entry format c (map Append entries) acc0 world0 = Some (a, w) ->
  Forall within_thresholds (handed w) /\
  size (buf a) = content_size (batch (buf a)) /\
  forall (entry : Entry) (formatted : Line),
    consuming a = true ->
    format entry = Ok formatted ->
    len formatted <= maxLogSize ->
    if (size (buf a) + len formatted >=? maxContentSize)
       || (len (batch (buf a)) =? maxLogCount)
    then exists w',
           step P Entry format c (Append entry) a w
             = Some (mkAcc (mkBuffer [formatted] (len formatted)) true, w') /\
           handed w' = handed w ++ [batch (buf a)]
    else step P Entry format c (Append entry) a w
           = Some (mkAcc (mkBuffer (batch (buf a) ++ [formatted])
                                   (size (buf a) + len formatted)) true, w).
Proof.
  intros HM Hrun.
  destruct (run_ok P Entry format c HM (map Append entries) acc0 a world0 w) as [Hb Hw].
  - exact buffer0_ok.
  - constructor.
  - exact Hrun.
  - split; [exact Hw|]. split; [exact (proj1 Hb)|].
    intros entry formatted Ha Hf Hl.
    cbn [step]. unfold on_entry. rewrite Ha.
    rewrite (consume_append P Entry format c entry formatted (buf a) w Hb Hf Hl).
    destruct ((size (buf a) + len formatted >=? maxContentSize)
              || (len (batch (buf a)) =? maxLogCount)).
    + eexists. split; [reflexivity|]. apply send_handed. exact HM.
    + reflexivity.
Qed.

Lemma X18_flush_rule_witness :
  Forall within_thresholds [] /\
  step Sample.accepting Sample.entry Sample.format (Sample.config 5)
       (Append (Some Sample.b)) (mkAcc (mkBuffer [Sample.a] 1) true) world0
    = Some (mkAcc (mkBuffer [Sample.a; Sample.b] 2) true, world0).
Proof.
  destruct (X18_flush_rule Sample.accepting Sample.entry Sample.format (Sample.config 5)
              [Some Sample.a] (mkAcc (mkBuffer [Sample.a] 1) true) world0)
    as (H1 & _ & H3).
  - int_range.
  - reflexivity.
  - split; [exact H1|].
    apply (H3 (Some Sample.b) Sample.b eq_refl eq_refl).
    unfold len, maxLogSize; simpl; lia.
Defined.
